(** * DDIM and PLMS samplers of imaginairy: a shallow embedding

    The two source files [imaginairy/samplers/ddim.py] and
    [imaginairy/samplers/plms.py] are embedded function by function.

    - Tensor elements are IEEE-754 binary32 numbers ([torch.float32]),
      taken from the Standard Library's executable specification
      [SpecFloat] with [prec = 24] and [emax = 128]: rounding to nearest
      even, signed zeros, infinities and a NaN.
    - A latent of shape [batch, channels, height, width] is a list of
      rows, one row per batch element, each row holding the elements of
      that batch element in storage order.  Coefficients built with
      [torch.full((batch, 1, 1, 1), c)] broadcast one number over all
      elements and are plain numbers here.  The operands of one
      element-wise operation have equal shapes in every call of the source
      (torch refuses anything else that does not broadcast).
    - Python exceptions, the random generator of torch and the calls to
      the collaborators live in a small state-and-error monad: the world
      holds the pseudo-random stream, the number of values already drawn
      from it, and the trace of observable calls (noise predictions,
      [q_sample], [log_latent]). *)

From Stdlib Require Import ZArith List Bool Lia String Arith DecimalString.
From Stdlib Require Import SpecFloat.
Import ListNotations.

Set Implicit Arguments.

(* ------------------------------------------------------------------ *)
(** ** binary32 arithmetic *)

Module F32.

Definition prec : Z := 24.
Definition emax : Z := 128.

Definition F : Type := spec_float.

Definition add : F -> F -> F := SFadd prec emax.
Definition sub : F -> F -> F := SFsub prec emax.
Definition mul : F -> F -> F := SFmul prec emax.
Definition div : F -> F -> F := SFdiv prec emax.
Definition sqrt : F -> F := SFsqrt prec emax.
Definition ltb : F -> F -> bool := SFltb.
Definition leb : F -> F -> bool := SFleb.

(** An integer literal, rounded to binary32. *)
Definition of_Z (z : Z) : F := binary_normalize prec emax z 0 false.

Definition zero : F := S754_zero false.
Definition one : F := Eval vm_compute in of_Z 1.

(** [x ** 2] on a float tensor is evaluated by torch as [x * x]. *)
Definition square (x : F) : F := mul x x.

Definition is_nan (x : F) : bool :=
  match x with S754_nan => true | _ => false end.

Definition is_zero (x : F) : bool :=
  match x with S754_zero _ => true | _ => false end.



(** Python's [==] on numbers other than the NaN: the two zeros are
    equal, everything else is equal to itself only. *)
Definition same_number (x y : F) : Prop :=
  x = y \/ (is_zero x = true /\ is_zero y = true).

End F32.

Definition F : Type := F32.F.

(* ------------------------------------------------------------------ *)
(** ** Tensors *)

Definition Tensor : Type := list (list F).

Definition tmap (f : F -> F) (x : Tensor) : Tensor := map (map f) x.

Fixpoint zip_with {A B C : Type} (f : A -> B -> C) (xs : list A) (ys : list B)
  : list C :=
  match xs, ys with
  | x :: xs', y :: ys' => f x y :: zip_with f xs' ys'
  | _, _ => []
  end.

Definition tmap2 (f : F -> F -> F) (x y : Tensor) : Tensor :=
  zip_with (zip_with f) x y.

Definition tadd : Tensor -> Tensor -> Tensor := tmap2 F32.add.
Definition tsub : Tensor -> Tensor -> Tensor := tmap2 F32.sub.
Definition tmul : Tensor -> Tensor -> Tensor := tmap2 F32.mul.

(** [c * x], [x * c], [c - x] and [x / c] for a number [c]. *)
Definition scale (c : F) (x : Tensor) : Tensor := tmap (F32.mul c) x.
Definition scale_r (x : Tensor) (c : F) : Tensor := tmap (fun e => F32.mul e c) x.
Definition rsub (c : F) (x : Tensor) : Tensor := tmap (F32.sub c) x.
Definition divide (x : Tensor) (c : F) : Tensor := tmap (fun e => F32.div e c) x.

(** [x.shape]: the number of elements of each batch element. *)
Definition shape_of (x : Tensor) : list nat := map (@List.length F) x.

(** Every element satisfies [p]. *)
Definition tall (p : F -> bool) (x : Tensor) : bool := forallb (forallb p) x.

(** Element-wise relation between two tensors of one shape. *)
Definition trel (R : F -> F -> Prop) (x y : Tensor) : Prop :=
  Forall2 (Forall2 R) x y.

(** A tensor of the shape of [x] filled with [c]. *)
Definition full_like (x : Tensor) (c : F) : Tensor := tmap (fun _ => c) x.

(* ------------------------------------------------------------------ *)
(** ** Exceptions, randomness and observable calls *)

Inductive exn : Type :=
| ValueError
| AssertionError
| IndexError
| RuntimeError.

Inductive outcome (A : Type) : Type :=
| Raised (e : exn)
| Returned (a : A).

Arguments Raised {A} e.
Arguments Returned {A} a.

(** What a run lets an observer see, in order. *)
Inductive event : Type :=
| EvNoisePrediction (noisy_latent : Tensor) (time_encoding : list nat)
| EvQSample (x_start : Tensor) (t : list nat) (noise : option Tensor)
| EvLogLatent (label : string) (latent : Tensor).

(** [stream] is the sequence of values the generator of torch will hand
    out, [drawn] how many of them have been consumed. *)
Record world : Type := World {
  stream : nat -> F;
  drawn : nat;
  trace : list event
}.

Definition M (A : Type) : Type := world -> outcome A * world.

Definition ret {A : Type} (a : A) : M A := fun w => (Returned a, w).

Definition raise {A : Type} (e : exn) : M A := fun w => (Raised e, w).

Definition bind {A B : Type} (c : M A) (k : A -> M B) : M B :=
  fun w =>
    match c w with
    | (Returned a, w') => k a w'
    | (Raised e, w') => (Raised e, w')
    end.

Declare Scope sampler_scope.
Delimit Scope sampler_scope with sampler.
Notation "x <- c ;; k" := (bind c (fun x => k))
  (at level 61, c at next level, right associativity) : sampler_scope.
Notation "' pat <- c ;; k" := (bind c (fun x => match x with pat => k end))
  (at level 61, pat pattern, c at next level, right associativity) : sampler_scope.
Notation "c ;; k" := (bind c (fun _ => k))
  (at level 61, right associativity) : sampler_scope.
Open Scope sampler_scope.

Definition emit (e : event) : M unit :=
  fun w => (Returned tt, World (stream w) (drawn w) (trace w ++ [e])).

(** [assert b] *)
Definition assert (b : bool) : M unit :=
  if b then ret tt else raise AssertionError.

(** A failed table lookup is Python's [IndexError]. *)
Definition lookup {A : Type} (o : option A) : M A :=
  match o with
  | Some a => ret a
  | None => raise IndexError
  end.

(** Rows of the given lengths, read off the stream from position [p]. *)
Fixpoint fill (g : nat -> F) (p : nat) (lens : list nat) : Tensor :=
  match lens with
  | [] => []
  | n :: rest => map g (seq p n) :: fill g (p + n) rest
  end.

(** [torch.randn] for the row lengths [lens]. *)
Definition randn_rows (lens : list nat) : M Tensor :=
  fun w =>
    (Returned (fill (stream w) (drawn w) lens),
     World (stream w) (drawn w + list_sum lens) (trace w)).

(** [torch.randn(shape)], [shape] given as batch size and elements per
    batch element. *)
Definition randn (shape : nat * nat) : M Tensor :=
  randn_rows (repeat (snd shape) (fst shape)).

(** [torch.randn_like(x)] *)
Definition randn_like (x : Tensor) : M Tensor := randn_rows (shape_of x).

(** [imaginairy.log_utils.log_latent] *)
Definition log_latent (latent : Tensor) (label : string) : M unit :=
  emit (EvLogLatent label latent).

(** Modelled from the spec: [noise_like] of
    [imaginairy.modules.diffusion.util], which is not part of the two
    source files.  A standard-normal sample shaped like the latent; with
    [repeat] it is sampled for batch element 0 and broadcast to all batch
    elements. *)
Definition noise_like (shape : list nat) (repeat_noise : bool) : M Tensor :=
  if repeat_noise then
    z <- randn_rows [hd 0%nat shape] ;;
    ret (repeat (hd [] z) (List.length shape))
  else randn_rows shape.

(* ------------------------------------------------------------------ *)
(** ** Collaborators *)

(** [self.model] and the functions imported from outside the two files.
    [get_noise_prediction] is [imaginairy.samplers.base.get_noise_prediction]
    applied to [self.model.apply_model]; [q_sample_with] is
    [self.model.q_sample] once its noise tensor is known;
    [dropout_with] is [torch.nn.functional.dropout] once its random tensor
    is known. *)
Record Model : Type := {
  num_timesteps : nat;
  alphas_cumprod : list F;
  get_noise_prediction :
    Tensor -> list nat -> Tensor -> Tensor -> F -> Tensor;
  q_sample_with : Tensor -> list nat -> Tensor -> Tensor;
  quantize : Tensor -> Tensor;
  make_ddim_timesteps : string -> nat -> nat -> list nat;
  dropout_with : F -> Tensor -> Tensor -> Tensor
}.

(** The guided noise prediction, recorded in the trace. *)
Definition noise_prediction (model : Model) (noisy_latent : Tensor)
    (time_encoding : list nat) (neutral_conditioning positive_conditioning : Tensor)
    (signal_amplification : F) : M Tensor :=
  emit (EvNoisePrediction noisy_latent time_encoding) ;;
  ret (get_noise_prediction model noisy_latent time_encoding
         neutral_conditioning positive_conditioning signal_amplification).

(** Modelled from the spec: [self.model.q_sample], which is not part of
    the two source files.  [ForwardNoise(model, orig_latent, timestep_ids,
    noise?)]: without a noise argument a fresh Gaussian tensor shaped like
    the input is drawn. *)
Definition q_sample (model : Model) (x_start : Tensor) (t : list nat)
    (noise : option Tensor) : M Tensor :=
  emit (EvQSample x_start t noise) ;;
  n <- match noise with
       | Some n => ret n
       | None => randn_like x_start
       end ;;
  ret (q_sample_with model x_start t n).

(** [torch.nn.functional.dropout(noise, p=p)] draws one random tensor. *)
Definition dropout (model : Model) (noise : Tensor) (p : F) : M Tensor :=
  u <- randn_like noise ;;
  ret (dropout_with model p u noise).

(* ------------------------------------------------------------------ *)
(** ** Schedules *)

Record Schedule : Type := {
  sched_alphas_cumprod : list F;
  sqrt_alphas_cumprod : list F;
  sqrt_one_minus_alphas_cumprod : list F;
  ddim_timesteps : list nat;
  ddim_sigmas : list F;
  ddim_alphas : list F;
  ddim_alphas_prev : list F;
  ddim_sqrt_one_minus_alphas : list F
}.

(** [a[ts]]: [None] when an index is out of range. *)
Fixpoint gather (a : list F) (ts : list nat) : option (list F) :=
  match ts with
  | [] => Some []
  | t :: rest =>
      match nth_error a t, gather a rest with
      | Some v, Some vs => Some (v :: vs)
      | _, _ => None
      end
  end.

(** Modelled from the spec:
    [sigmas[i] = eta * sqrt((1-alphas_prev[i])/(1-alphas[i]) * (1-alphas[i]/alphas_prev[i]))]. *)
Definition sigma_factor (a a_prev : F) : F :=
  F32.sqrt
    (F32.mul
       (F32.div (F32.sub F32.one a_prev) (F32.sub F32.one a))
       (F32.sub F32.one (F32.div a a_prev))).

Definition ddim_sigma (eta a a_prev : F) : F :=
  F32.mul eta (sigma_factor a a_prev).

(** Modelled from the spec: [make_ddim_sampling_parameters] of
    [imaginairy.modules.diffusion.util], which is not part of the two
    source files.  For the schedule index [i] mapped to the model
    timestep [t_i]: [alphas[i] = alphacums[t_i]],
    [alphas_prev[i] = alphacums[t_(i-1)]] for [i > 0] and [alphacums[0]]
    for [i = 0], and [sigmas[i]] as above.  Returns
    [(sigmas, alphas, alphas_prev)]. *)
Definition make_ddim_sampling_parameters (alphacums : list F)
    (timesteps : list nat) (eta : F)
  : option (list F * list F * list F) :=
  match gather alphacums timesteps with
  | None => None
  | Some alphas =>
      match timesteps with
      | [] => Some ([], [], [])
      | _ :: _ =>
          match nth_error alphacums 0 with
          | None => None
          | Some a0 =>
              let alphas_prev := a0 :: removelast alphas in
              Some (zip_with (ddim_sigma eta) alphas alphas_prev,
                    alphas, alphas_prev)
          end
      end
  end.

Definition build_schedule (model_num_timesteps : nat)
    (model_alphas_cumprod : list F) (timesteps : list nat) (eta : F)
  : M Schedule :=
  if negb (List.length model_alphas_cumprod =? model_num_timesteps)%nat then
    raise ValueError
  else
    '(sigmas, alphas, alphas_prev) <-
      lookup (make_ddim_sampling_parameters model_alphas_cumprod timesteps eta) ;;
    ret {| sched_alphas_cumprod := model_alphas_cumprod;
           sqrt_alphas_cumprod := map F32.sqrt model_alphas_cumprod;
           sqrt_one_minus_alphas_cumprod :=
             map (fun a => F32.sqrt (F32.sub F32.one a)) model_alphas_cumprod;
           ddim_timesteps := timesteps;
           ddim_sigmas := sigmas;
           ddim_alphas := alphas;
           ddim_alphas_prev := alphas_prev;
           ddim_sqrt_one_minus_alphas :=
             map (fun a => F32.sqrt (F32.sub F32.one a)) alphas |}.

(** [DDIMSchedule.__init__] *)
Definition DDIMSchedule (model : Model) (model_num_timesteps : nat)
    (model_alphas_cumprod : list F) (ddim_num_steps : nat)
    (ddim_discretize : string) (ddim_eta : F) : M Schedule :=
  build_schedule model_num_timesteps model_alphas_cumprod
    (make_ddim_timesteps model ddim_discretize ddim_num_steps model_num_timesteps)
    ddim_eta.

(** [PLMSSchedule.__init__]: the same with [eta = 0.0]. *)
Definition PLMSSchedule (model : Model) (model_num_timesteps : nat)
    (model_alphas_cumprod : list F) (ddim_num_steps : nat)
    (ddim_discretize : string) : M Schedule :=
  build_schedule model_num_timesteps model_alphas_cumprod
    (make_ddim_timesteps model ddim_discretize ddim_num_steps model_num_timesteps)
    F32.zero.

(* ------------------------------------------------------------------ *)
(** ** Helpers shared by the two samplers *)

(** [0.8] as torch hands it to a binary32 kernel, and the Python number
    [1 - 0.8] handed over the same way. *)
Definition hint_strength : F := S754_finite false 13421773 (-24).
Definition one_minus_hint_strength : F := S754_finite false 13421773 (-26).

(** [img_orig * mask + (1.0 - mask) * noisy_latent] *)
Definition composite (img_orig mask noisy_latent : Tensor) : Tensor :=
  tadd (tmul img_orig mask) (tmul (rsub F32.one mask) noisy_latent).

(** [xdec_orig * (1 - hint_strength) + orig_latent * hint_strength] *)
Definition with_hints (xdec_orig orig_latent : Tensor) : Tensor :=
  tadd (scale_r xdec_orig one_minus_hint_strength)
       (scale_r orig_latent hint_strength).

(** [enumerate(np.flip(timesteps))] *)
Definition enumerate_flipped (timesteps : list nat) : list (nat * nat) :=
  combine (seq 0 (List.length timesteps)) (rev timesteps).

(** [torch.full((batch,), step)] *)
Definition full_ts (batch step : nat) : list nat := repeat step batch.

(** [timesteps[:t_start]] with Python's slice rules. *)
Definition slice_to (timesteps : list nat) (t_start : Z) : list nat :=
  if (0 <=? t_start)%Z then firstn (Z.to_nat t_start) timesteps
  else firstn (List.length timesteps - Z.to_nat (- t_start)) timesteps.

(** [f"{label} {i}"] *)
Definition label_i (label : string) (i : nat) : string :=
  (label ++ " " ++ NilEmpty.string_of_uint (Nat.to_uint i))%string.

(** [t.clamp(0, 1000)] *)
Definition clamp_t (t : list Z) : list nat :=
  map (fun z => Z.to_nat (Z.max 0 (Z.min z 1000))) t.

(** Modelled from the spec: [extract_into_tensor] of
    [imaginairy.modules.diffusion.util], which is not part of the two
    source files.  It reads [a[t]] for the timestep of every batch element
    and shapes the result [(batch, 1, 1, 1)]; the product with a latent
    multiplies every batch element by its own coefficient.  An index out
    of range and shapes that do not broadcast are torch's
    [RuntimeError]. *)
Definition extract_into_tensor (a : list F) (t : list nat) : M (list F) :=
  match gather a t with
  | Some cs => ret cs
  | None => raise RuntimeError
  end.

(** The product of a [(batch, 1, 1, 1)] tensor of coefficients with a
    latent, with torch's broadcasting over the batch dimension. *)
Definition rows_scale (cs : list F) (x : Tensor) : M Tensor :=
  if (List.length cs =? List.length x)%nat then
    ret (zip_with (fun c row => map (F32.mul c) row) cs x)
  else
    match cs, x with
    | [c], _ => ret (scale c x)
    | _, [row] => ret (map (fun c => map (F32.mul c) row) cs)
    | _, _ => raise RuntimeError
    end.

(** The body shared by the two [noise_an_image] methods. *)
Definition noise_an_image_body (init_latent : Tensor) (t : list Z)
    (schedule : Schedule) (noise : option Tensor) : M Tensor :=
  let t := clamp_t t in
  let sqrt_alphas_cumprod := map F32.sqrt (ddim_alphas schedule) in
  let sqrt_one_minus_alphas_cumprod := ddim_sqrt_one_minus_alphas schedule in
  noise <- match noise with
           | Some n => ret n
           | None => randn_like init_latent
           end ;;
  c1 <- extract_into_tensor sqrt_alphas_cumprod t ;;
  x1 <- rows_scale c1 init_latent ;;
  c2 <- extract_into_tensor sqrt_one_minus_alphas_cumprod t ;;
  x2 <- rows_scale c2 noise ;;
  ret (tadd x1 x2).

(** The four coefficients of one schedule index, in the order the source
    reads them. *)
Definition coefficients (schedule : Schedule) (index : nat) : M (F * F * F * F) :=
  a_t <- lookup (nth_error (ddim_alphas schedule) index) ;;
  a_prev <- lookup (nth_error (ddim_alphas_prev schedule) index) ;;
  sigma_t <- lookup (nth_error (ddim_sigmas schedule) index) ;;
  sqrt_one_minus_at <- lookup (nth_error (ddim_sqrt_one_minus_alphas schedule) index) ;;
  ret (a_t, a_prev, sigma_t, sqrt_one_minus_at).

(** [(noisy_latent - sqrt_one_minus_at * noise_pred) / a_t.sqrt()] *)
Definition predicted_latent_of (noisy_latent noise_pred : Tensor)
    (sqrt_one_minus_at a_t : F) : Tensor :=
  divide (tsub noisy_latent (scale sqrt_one_minus_at noise_pred)) (F32.sqrt a_t).

(** [1.0 - a_prev - sigma_t**2] *)
Definition radicand (a_prev sigma_t : F) : F :=
  F32.sub (F32.sub F32.one a_prev) (F32.square sigma_t).

(** [(1.0 - a_prev - sigma_t**2).sqrt() * noise_pred] *)
Definition direction_term (a_prev sigma_t : F) (noise_pred : Tensor) : Tensor :=
  scale (F32.sqrt (radicand a_prev sigma_t)) noise_pred.

(** [sigma_t * noise_like(...) * temperature] for the drawn tensor [z]. *)
Definition noise_term (sigma_t : F) (z : Tensor) (temperature : F) : Tensor :=
  scale_r (scale sigma_t z) temperature.

(** The update formula, written once: [_p_sample_ddim_formula] of
    [DDIMSampler], and [get_x_prev_and_pred_x0] of [PLMSSampler] when
    [quantize_denoised] is false. *)
Definition step_formula (model : Model) (noisy_latent noise_pred : Tensor)
    (sqrt_one_minus_at a_t sigma_t a_prev noise_dropout : F)
    (repeat_noise quantize_denoised : bool) (temperature : F)
  : M (Tensor * Tensor) :=
  let predicted_latent :=
    predicted_latent_of noisy_latent noise_pred sqrt_one_minus_at a_t in
  let predicted_latent :=
    if quantize_denoised then quantize model predicted_latent
    else predicted_latent in
  let dir_xt := direction_term a_prev sigma_t noise_pred in
  z <- noise_like (shape_of noisy_latent) repeat_noise ;;
  let noise := noise_term sigma_t z temperature in
  noise <- (if F32.ltb F32.zero noise_dropout then dropout model noise noise_dropout
            else ret noise) ;;
  let x_prev :=
    tadd (tadd (scale (F32.sqrt a_prev) predicted_latent) dir_xt) noise in
  ret (x_prev, predicted_latent).

(** [x if x is not None else torch.randn(...)] *)
Definition default_to {A : Type} (x : option A) (fresh : M A) : M A :=
  match x with
  | Some a => ret a
  | None => fresh
  end.

(** A [for] loop over the enumerated steps, threading the loop state
    through its turns. *)
Fixpoint for_each {S : Type} (body : nat -> nat -> S -> M S)
    (steps : list (nat * nat)) (state : S) : M S :=
  match steps with
  | [] => ret state
  | (i, step) :: rest =>
      state <- body i step state ;;
      for_each body rest state
  end.

(** [torch]'s rendering of a vector of timesteps inside an f-string. *)
Definition repr_ts (ts : list nat) : string :=
  ("tensor([" ++ String.concat ", " (map (fun t => NilEmpty.string_of_uint (Nat.to_uint t)) ts)
   ++ "])")%string.

(* ------------------------------------------------------------------ *)
(** ** [ddim.py]: class [DDIMSampler] *)

Module DDIMSampler.

(** [_p_sample_ddim_formula] *)
Definition p_sample_ddim_formula (model : Model)
    (noisy_latent noise_pred : Tensor)
    (sqrt_one_minus_at a_t sigma_t a_prev noise_dropout : F)
    (repeat_noise : bool) (temperature : F) : M (Tensor * Tensor) :=
  step_formula model noisy_latent noise_pred sqrt_one_minus_at a_t sigma_t
    a_prev noise_dropout repeat_noise false temperature.

(** [p_sample_ddim]; [quantize_denoised] is accepted and never read. *)
Definition p_sample_ddim (model : Model) (noisy_latent : Tensor)
    (neutral_conditioning positive_conditioning : Tensor)
    (guidance_scale : F) (time_encoding : list nat) (index : nat)
    (schedule : Schedule) (repeat_noise quantize_denoised : bool)
    (temperature noise_dropout : F) : M (Tensor * Tensor) :=
  assert (F32.leb F32.one guidance_scale) ;;
  noise_pred <- noise_prediction model noisy_latent time_encoding
                  neutral_conditioning positive_conditioning guidance_scale ;;
  '(a_t, a_prev, sigma_t, sqrt_one_minus_at) <- coefficients schedule index ;;
  p_sample_ddim_formula model noisy_latent noise_pred sqrt_one_minus_at a_t
    sigma_t a_prev noise_dropout repeat_noise temperature.

(** One turn of the loop of [sample]. *)
Definition sample_iteration (model : Model)
    (neutral_conditioning positive_conditioning : Tensor)
    (guidance_scale : F) (batch_size : nat)
    (mask orig_latent : option Tensor) (temperature noise_dropout : F)
    (quantize_x0 : bool) (schedule : Schedule) (total_steps : nat)
    (i step : nat) (noisy_latent : Tensor) : M Tensor :=
  let index := (total_steps - i - 1)%nat in
  let ts := full_ts batch_size step in
  noisy_latent <-
    match mask with
    | None => ret noisy_latent
    | Some mask =>
        match orig_latent with
        | None => raise AssertionError
        | Some orig_latent =>
            img_orig <- q_sample model orig_latent ts None ;;
            ret (composite img_orig mask noisy_latent)
        end
    end ;;
  '(noisy_latent, predicted_latent) <-
    p_sample_ddim model noisy_latent neutral_conditioning
      positive_conditioning guidance_scale ts index schedule false
      quantize_x0 temperature noise_dropout ;;
  log_latent noisy_latent "noisy_latent" ;;
  log_latent predicted_latent "predicted_latent" ;;
  ret noisy_latent.

(** [sample] *)
Definition sample (model : Model) (num_steps : nat) (shape : nat * nat)
    (neutral_conditioning positive_conditioning : Tensor)
    (guidance_scale : F) (batch_size : nat)
    (mask orig_latent : option Tensor) (temperature noise_dropout : F)
    (initial_latent : option Tensor) (quantize_x0 : bool) : M Tensor :=
  if negb (List.length positive_conditioning =? batch_size)%nat then
    raise ValueError
  else
    schedule <- DDIMSchedule model (num_timesteps model)
                  (alphas_cumprod model) num_steps "uniform" F32.zero ;;
    initial_latent <- default_to initial_latent (randn shape) ;;
    log_latent initial_latent "initial latent" ;;
    let timesteps := ddim_timesteps schedule in
    let total_steps := List.length timesteps in
    for_each
      (sample_iteration model neutral_conditioning positive_conditioning
         guidance_scale batch_size mask orig_latent temperature
         noise_dropout quantize_x0 schedule total_steps)
      (enumerate_flipped timesteps) initial_latent.

(** [noise_an_image] *)
Definition noise_an_image (init_latent : Tensor) (t : list Z)
    (schedule : Schedule) (noise : option Tensor) : M Tensor :=
  noise_an_image_body init_latent t schedule noise.

(** One turn of the loop of [decode]. *)
Definition decode_iteration (model : Model) (initial_latent : Tensor)
    (neutral_conditioning positive_conditioning : Tensor)
    (guidance_scale : F) (schedule : Schedule) (temperature : F)
    (mask orig_latent : option Tensor) (total_steps : nat)
    (i step : nat) (noisy_latent : Tensor) : M Tensor :=
  let index := (total_steps - i - 1)%nat in
  let ts := full_ts (List.length initial_latent) step in
  noisy_latent <-
    match mask with
    | None => ret noisy_latent
    | Some mask =>
        match orig_latent with
        | None => raise AssertionError
        | Some orig_latent =>
            xdec_orig <- q_sample model orig_latent ts None ;;
            log_latent xdec_orig "xdec_orig" ;;
            let xdec_orig_with_hints :=
              if (i <? 2)%nat then with_hints xdec_orig orig_latent
              else xdec_orig in
            let noisy_latent := composite xdec_orig_with_hints mask noisy_latent in
            log_latent noisy_latent "noisy_latent" ;;
            ret noisy_latent
        end
    end ;;
  '(noisy_latent, predicted_latent) <-
    p_sample_ddim model noisy_latent neutral_conditioning
      positive_conditioning guidance_scale ts index schedule false false
      temperature F32.zero ;;
  log_latent noisy_latent (label_i "noisy_latent" i) ;;
  log_latent predicted_latent (label_i "predicted_latent" i) ;;
  ret noisy_latent.

(** [decode] *)
Definition decode (model : Model) (initial_latent : Tensor)
    (neutral_conditioning positive_conditioning : Tensor)
    (guidance_scale : F) (t_start : Z) (schedule : Schedule)
    (temperature : F) (mask orig_latent : option Tensor) : M Tensor :=
  let timesteps := slice_to (ddim_timesteps schedule) t_start in
  let total_steps := List.length timesteps in
  for_each
    (decode_iteration model initial_latent neutral_conditioning
       positive_conditioning guidance_scale schedule temperature mask
       orig_latent total_steps)
    (enumerate_flipped timesteps) initial_latent.

End DDIMSampler.

(* ------------------------------------------------------------------ *)
(** ** [plms.py]: class [PLMSSampler] *)

Module PLMSSampler.

(** [old_eps[-k]] for [1 <= k <= len(old_eps)]; every use in the source
    sits in a branch that has checked the length. *)
Definition from_end (old_eps : list Tensor) (k : nat) : Tensor :=
  nth (k - 1) (rev old_eps) [].

(** The local function [get_x_prev_and_pred_x0] of [p_sample_plms]; the
    variables it closes over are arguments here. *)
Definition get_x_prev_and_pred_x0 (model : Model) (schedule : Schedule)
    (noisy_latent : Tensor) (repeat_noise quantize_denoised : bool)
    (temperature noise_dropout : F) (e_t : Tensor) (index : nat)
  : M (Tensor * Tensor) :=
  '(alpha_at_t, alpha_prev_at_t, sigma_t, sqrt_one_minus_at) <-
    coefficients schedule index ;;
  step_formula model noisy_latent e_t sqrt_one_minus_at alpha_at_t sigma_t
    alpha_prev_at_t noise_dropout repeat_noise quantize_denoised temperature.

(** The branch on [len(old_eps)] of [p_sample_plms] that computes
    [e_t_prime]. *)
Definition e_t_prime (model : Model) (schedule : Schedule)
    (noisy_latent : Tensor)
    (neutral_conditioning positive_conditioning : Tensor)
    (guidance_scale : F) (repeat_noise quantize_denoised : bool)
    (temperature noise_dropout : F) (old_eps : list Tensor)
    (t_next : list nat) (noise_pred : Tensor) (index : nat) : M Tensor :=
  match List.length old_eps with
  | 0%nat =>
      '(x_prev, pred_x0) <-
        get_x_prev_and_pred_x0 model schedule noisy_latent repeat_noise
          quantize_denoised temperature noise_dropout noise_pred index ;;
      e_t_next <- noise_prediction model x_prev t_next neutral_conditioning
                    positive_conditioning guidance_scale ;;
      ret (divide (tadd noise_pred e_t_next) (F32.of_Z 2))
  | 1%nat =>
      ret (divide (tsub (scale (F32.of_Z 3) noise_pred) (from_end old_eps 1))
             (F32.of_Z 2))
  | 2%nat =>
      ret (divide
             (tadd (tsub (scale (F32.of_Z 23) noise_pred)
                      (scale (F32.of_Z 16) (from_end old_eps 1)))
                (scale (F32.of_Z 5) (from_end old_eps 2)))
             (F32.of_Z 12))
  | _ =>
      ret (divide
             (tsub
                (tadd (tsub (scale (F32.of_Z 55) noise_pred)
                         (scale (F32.of_Z 59) (from_end old_eps 1)))
                   (scale (F32.of_Z 37) (from_end old_eps 2)))
                (scale (F32.of_Z 9) (from_end old_eps 3)))
             (F32.of_Z 24))
  end.

(** [p_sample_plms] *)
Definition p_sample_plms (model : Model) (noisy_latent : Tensor)
    (neutral_conditioning positive_conditioning : Tensor)
    (guidance_scale : F) (time_encoding : list nat) (schedule : Schedule)
    (index : nat) (repeat_noise quantize_denoised : bool)
    (temperature noise_dropout : F) (old_eps : list Tensor)
    (t_next : list nat) : M (Tensor * Tensor * Tensor) :=
  assert (F32.leb F32.one guidance_scale) ;;
  noise_pred <- noise_prediction model noisy_latent time_encoding
                  neutral_conditioning positive_conditioning guidance_scale ;;
  e_t_prime <- e_t_prime model schedule noisy_latent neutral_conditioning
                 positive_conditioning guidance_scale repeat_noise
                 quantize_denoised temperature noise_dropout old_eps t_next
                 noise_pred index ;;
  '(x_prev, pred_x0) <-
    get_x_prev_and_pred_x0 model schedule noisy_latent repeat_noise
      quantize_denoised temperature noise_dropout e_t_prime index ;;
  log_latent x_prev "x_prev" ;;
  log_latent pred_x0 "pred_x0" ;;
  ret (x_prev, pred_x0, noise_pred).

(** [old_eps.append(noise_pred)] followed by
    [if len(old_eps) >= 4: old_eps.pop(0)]. *)
Definition append_and_trim (old_eps : list Tensor) (noise_pred : Tensor)
  : list Tensor :=
  let old_eps := old_eps ++ [noise_pred] in
  if (4 <=? List.length old_eps)%nat then tl old_eps else old_eps.

(** [time_range[min(i + 1, len(time_range) - 1)]] *)
Definition next_step (time_range : list nat) (i : nat) : nat :=
  nth (Nat.min (i + 1) (List.length time_range - 1)) time_range 0%nat.

(** One turn of the loop of [sample]; the loop state is the latent and
    the list [old_eps]. *)
Definition sample_iteration (model : Model)
    (neutral_conditioning positive_conditioning : Tensor)
    (guidance_scale : F) (batch_size : nat)
    (mask orig_latent : option Tensor) (temperature noise_dropout : F)
    (quantize_denoised : bool) (schedule : Schedule)
    (time_range : list nat) (total_steps : nat)
    (i step : nat) (state : Tensor * list Tensor)
  : M (Tensor * list Tensor) :=
  let '(noisy_latent, old_eps) := state in
  let index := (total_steps - i - 1)%nat in
  let ts := full_ts batch_size step in
  let ts_next := full_ts batch_size (next_step time_range i) in
  noisy_latent <-
    match mask with
    | None => ret noisy_latent
    | Some mask =>
        match orig_latent with
        | None => raise AssertionError
        | Some orig_latent =>
            img_orig <- q_sample model orig_latent ts None ;;
            ret (composite img_orig mask noisy_latent)
        end
    end ;;
  '(noisy_latent, predicted_latent, noise_pred) <-
    p_sample_plms model noisy_latent neutral_conditioning
      positive_conditioning guidance_scale ts schedule index false
      quantize_denoised temperature noise_dropout old_eps ts_next ;;
  let old_eps := append_and_trim old_eps noise_pred in
  log_latent noisy_latent "noisy_latent" ;;
  log_latent predicted_latent "predicted_latent" ;;
  ret (noisy_latent, old_eps).

(** [sample], returning the final [old_eps] next to the latent so that
    the history can be observed. *)
Definition sample_with_history (model : Model) (num_steps : nat)
    (shape : nat * nat)
    (neutral_conditioning positive_conditioning : Tensor)
    (guidance_scale : F) (batch_size : nat)
    (mask orig_latent : option Tensor) (temperature noise_dropout : F)
    (initial_latent : option Tensor) (quantize_denoised : bool)
  : M (Tensor * list Tensor) :=
  if negb (List.length positive_conditioning =? batch_size)%nat then
    raise ValueError
  else
    schedule <- PLMSSchedule model (num_timesteps model)
                  (alphas_cumprod model) num_steps "uniform" ;;
    initial_latent <- default_to initial_latent (randn shape) ;;
    log_latent initial_latent "initial latent" ;;
    let timesteps := ddim_timesteps schedule in
    let time_range := rev timesteps in
    let total_steps := List.length timesteps in
    for_each
      (sample_iteration model neutral_conditioning positive_conditioning
         guidance_scale batch_size mask orig_latent temperature
         noise_dropout quantize_denoised schedule time_range total_steps)
      (enumerate_flipped timesteps) (initial_latent, []).

(** [sample] *)
Definition sample (model : Model) (num_steps : nat) (shape : nat * nat)
    (neutral_conditioning positive_conditioning : Tensor)
    (guidance_scale : F) (batch_size : nat)
    (mask orig_latent : option Tensor) (temperature noise_dropout : F)
    (initial_latent : option Tensor) (quantize_denoised : bool) : M Tensor :=
  r <- sample_with_history model num_steps shape neutral_conditioning
         positive_conditioning guidance_scale batch_size mask orig_latent
         temperature noise_dropout initial_latent quantize_denoised ;;
  ret (fst r).

(** [noise_an_image] *)
Definition noise_an_image (init_latent : Tensor) (t : list Z)
    (schedule : Schedule) (noise : option Tensor) : M Tensor :=
  noise_an_image_body init_latent t schedule noise.

(** One turn of the loop of [decode]. *)
Definition decode_iteration (model : Model)
    (neutral_conditioning positive_conditioning : Tensor)
    (guidance_scale : F) (schedule : Schedule) (initial_latent : Tensor)
    (temperature : F) (mask orig_latent : option Tensor) (noise : Tensor)
    (time_range : list nat) (total_steps : nat)
    (i step : nat) (state : Tensor * list Tensor)
  : M (Tensor * list Tensor) :=
  let '(x_dec, old_eps) := state in
  let index := (total_steps - i - 1)%nat in
  let ts := full_ts (List.length initial_latent) step in
  let ts_next := full_ts (List.length initial_latent) (next_step time_range i) in
  x_dec <-
    match mask with
    | None => ret x_dec
    | Some mask =>
        match orig_latent with
        | None => raise AssertionError
        | Some orig_latent =>
            xdec_orig <- q_sample model orig_latent ts (Some noise) ;;
            log_latent xdec_orig
              ("xdec_orig i=" ++ NilEmpty.string_of_uint (Nat.to_uint i)
               ++ " index-" ++ NilEmpty.string_of_uint (Nat.to_uint index)) ;;
            let xdec_orig_with_hints :=
              if (i <? 2)%nat then with_hints xdec_orig orig_latent
              else xdec_orig in
            let x_dec := composite xdec_orig_with_hints mask x_dec in
            log_latent x_dec ("x_dec " ++ repr_ts ts) ;;
            ret x_dec
        end
    end ;;
  '(x_dec, pred_x0, noise_prediction) <-
    p_sample_plms model x_dec neutral_conditioning positive_conditioning
      guidance_scale ts schedule index false false temperature F32.zero
      old_eps ts_next ;;
  let old_eps := append_and_trim old_eps noise_prediction in
  log_latent x_dec (label_i "x_dec" i) ;;
  log_latent pred_x0 (label_i "pred_x0" i) ;;
  ret (x_dec, old_eps).

(** [decode], returning the final [old_eps] next to the latent.  The
    source reads [initial_latent.shape] and so needs a latent, whatever
    the default of the parameter says. *)
Definition decode_with_history (model : Model)
    (neutral_conditioning positive_conditioning : Tensor)
    (guidance_scale : F) (schedule : Schedule) (initial_latent : Tensor)
    (t_start : option Z) (temperature : F)
    (mask orig_latent noise : option Tensor) : M (Tensor * list Tensor) :=
  let timesteps :=
    match t_start with
    | Some t_start => slice_to (ddim_timesteps schedule) t_start
    | None => ddim_timesteps schedule
    end in
  let time_range := rev timesteps in
  let total_steps := List.length timesteps in
  let x_dec := initial_latent in
  log_latent x_dec "x_dec" ;;
  noise <- default_to noise (randn_like x_dec) ;;
  for_each
    (decode_iteration model neutral_conditioning positive_conditioning
       guidance_scale schedule initial_latent temperature mask orig_latent
       noise time_range total_steps)
    (enumerate_flipped timesteps) (x_dec, []).

(** [decode] *)
Definition decode (model : Model)
    (neutral_conditioning positive_conditioning : Tensor)
    (guidance_scale : F) (schedule : Schedule) (initial_latent : Tensor)
    (t_start : option Z) (temperature : F)
    (mask orig_latent noise : option Tensor) : M Tensor :=
  r <- decode_with_history model neutral_conditioning positive_conditioning
         guidance_scale schedule initial_latent t_start temperature mask
         orig_latent noise ;;
  ret (fst r).

End PLMSSampler.

(* ------------------------------------------------------------------ *)
(** ** A small concrete model to run the samplers on *)

Module Toy.

(** [n / d] rounded to binary32. *)
Definition ratio (n d : Z) : F := F32.div (F32.of_Z n) (F32.of_Z d).

(** The uniform rule of the reference implementation:
    [range(0, T, T // n) + 1]. *)
Definition uniform_timesteps (method : string) (n T : nat) : list nat :=
  let c := (T / n)%nat in
  map (fun k => (k * c + 1)%nat) (seq 0 (if (c =? 0)%nat then 0 else (T + c - 1) / c)).

(** Twelve model timesteps, [alphas_cumprod[t] = (12 - t) / 13]. *)
Definition acp : list F :=
  map (fun t => ratio (12 - Z.of_nat t) 13) (seq 0 12).

(** [sqrt(acp[t]) * x_0 + sqrt(1 - acp[t]) * noise], with one timestep
    for the whole batch. *)
Definition forward_noise (x_start : Tensor) (t : list nat) (noise : Tensor)
  : Tensor :=
  let a := nth (hd 0%nat t) acp F32.one in
  tadd (scale (F32.sqrt a) x_start)
       (scale (F32.sqrt (F32.sub F32.one a)) noise).

(** A noise predictor that halves the latent. *)
Definition halve (x : Tensor) (t : list nat) (neutral positive : Tensor)
    (scale_ : F) : Tensor :=
  scale (ratio 1 2) x.

Definition model : Model :=
  {| num_timesteps := 12;
     alphas_cumprod := acp;
     get_noise_prediction := halve;
     q_sample_with := forward_noise;
     quantize := fun x => x;
     make_ddim_timesteps := uniform_timesteps;
     dropout_with := fun p u x => x |}.

(** A pseudo-random stream, [1, -2, 1, -2, ...], and a world that has
    drawn nothing yet. *)
Definition gauss (k : nat) : F :=
  if Nat.even k then S754_finite false 8388608 (-23)
  else S754_finite true 8388608 (-22).

Definition w0 : world := {| stream := gauss; drawn := 0; trace := [] |}.

Definition cond : Tensor := [[F32.one]].

Definition x0 : Tensor := [[F32.of_Z 1; F32.of_Z (-2); F32.of_Z 3]].

End Toy.

(** The schedule of the toy model for three steps, built by
    [DDIMSchedule]. *)
Definition toy_schedule : Schedule :=
  Eval vm_compute in
    match fst (DDIMSchedule Toy.model 12 Toy.acp 3 "uniform" F32.zero Toy.w0) with
    | Returned s => s
    | Raised _ => Build_Schedule [] [] [] [] [] [] [] []
    end.

(* ------------------------------------------------------------------ *)
(** ** What the spec asks of the direction term *)



(* ------------------------------------------------------------------ *)
(** ** What the spec asks of [noise_an_image] *)

(** Every batch element multiplied by its own coefficient. *)
Definition rows_scaled (cs : list F) (x : Tensor) : Tensor :=
  zip_with (fun c row => map (F32.mul c) row) cs x.

(** [noise_an_image] in the spec's words:
    [x_t = sqrt_alphas_cumprod[t]*x_0 + sqrt_one_minus_alphas_cumprod[t]*noise]
    with the whole-range arrays of the schedule, one entry per model
    timestep, indexed by the model timestep [t]. *)
Definition noise_an_image_spec (init_latent : Tensor) (t : list nat)
    (schedule : Schedule) (noise : Tensor) : option Tensor :=
  match gather (sqrt_alphas_cumprod schedule) t,
        gather (sqrt_one_minus_alphas_cumprod schedule) t with
  | Some c1, Some c2 =>
      Some (tadd (rows_scaled c1 init_latent) (rows_scaled c2 noise))
  | _, _ => None
  end.

(** The noise tensor [noise_an_image] works with, and the world after it
    has been obtained. *)
Definition noise_or_drawn (init_latent : Tensor) (noise : option Tensor)
    (w : world) : Tensor * world :=
  match noise with
  | Some n => (n, w)
  | None =>
      (fill (stream w) (drawn w) (shape_of init_latent),
       World (stream w) (drawn w + list_sum (shape_of init_latent)) (trace w))
  end.

(* ------------------------------------------------------------------ *)
(** ** Reading the trace *)

(** The event, when it is a call of [q_sample], was given the noise
    argument [n]. *)
Definition carries (n : option Tensor) (e : event) : Prop :=
  match e with
  | EvQSample _ _ noise => noise = n
  | _ => True
  end.

(** From [w] to [w'] the stream is the same and the trace has grown by
    events that all satisfy [Q]. *)
Definition appends (Q : event -> Prop) (w w' : world) : Prop :=
  stream w' = stream w
  /\ exists new, trace w' = trace w ++ new /\ Forall Q new.

(** Whatever its outcome, the computation only appends events that
    satisfy [Q]. *)
Definition keeps (Q : event -> Prop) {A : Type} (c : M A) : Prop :=
  forall w, appends Q w (snd (c w)).

(** The event with the label of a [log_latent] call erased. *)
Definition unlabel (e : event) : event :=
  match e with
  | EvLogLatent _ latent => EvLogLatent "" latent
  | _ => e
  end.

(** Two runs, from [ws] to [ws'] and from [wd] to [wd'], that drew the
    same number of values and appended the same events up to the labels
    of the logged latents. *)
Definition in_step (ws wd ws' wd' : world) : Prop :=
  stream ws' = stream ws
  /\ stream wd' = stream wd
  /\ (drawn ws' - drawn ws = drawn wd' - drawn wd)%nat
  /\ (drawn ws <= drawn ws')%nat
  /\ (drawn wd <= drawn wd')%nat
  /\ exists ns nd,
      trace ws' = trace ws ++ ns
      /\ trace wd' = trace wd ++ nd
      /\ map unlabel ns = map unlabel nd.

(** The schedule of the toy model for a single step. *)
Definition toy_schedule_1 : Schedule :=
  Eval vm_compute in
    match fst (DDIMSchedule Toy.model 12 Toy.acp 1 "uniform" F32.zero Toy.w0) with
    | Returned s => s
    | Raised _ => Build_Schedule [] [] [] [] [] [] [] []
    end.

(** A mask that keeps the first and the last element, and an original
    latent to keep them from. *)
Definition toy_mask : Tensor := [[F32.one; F32.zero; F32.one]].
Definition toy_orig : Tensor := [[F32.of_Z 2; F32.of_Z 2; F32.of_Z 2]].

(* ------------------------------------------------------------------ *)
(** ** Comparing two runs *)






(* ------------------------------------------------------------------ *)
(** ** Observing the model evaluations of a run *)

(** The time encodings of the noise predictions recorded in a trace, in
    order. *)
Fixpoint prediction_times (tr : list event) : list (list nat) :=
  match tr with
  | [] => []
  | EvNoisePrediction _ ts :: rest => ts :: prediction_times rest
  | _ :: rest => prediction_times rest
  end.

(** The toy model with a declared number of timesteps that its table of
    twelve cumulative alphas does not have. *)
Definition toy_model_short_table : Model :=
  {| num_timesteps := 10;
     alphas_cumprod := Toy.acp;
     get_noise_prediction := Toy.halve;
     q_sample_with := Toy.forward_noise;
     quantize := fun x => x;
     make_ddim_timesteps := Toy.uniform_timesteps;
     dropout_with := fun p u x => x |}.

(** The four coefficient arrays of the schedule have [n] entries at
    least. *)
Definition covers (schedule : Schedule) (n : nat) : Prop :=
  (n <= List.length (ddim_alphas schedule))%nat
  /\ (n <= List.length (ddim_alphas_prev schedule))%nat
  /\ (n <= List.length (ddim_sigmas schedule))%nat
  /\ (n <= List.length (ddim_sqrt_one_minus_alphas schedule))%nat.

(** The noise predictor returns a tensor of the shape of the latent it
    is given. *)
Definition shape_preserving (model : Model) : Prop :=
  forall x ts neutral positive g,
    shape_of (get_noise_prediction model x ts neutral positive g) = shape_of x.

(* ------------------------------------------------------------------ *)
(** * Properties *)

(** ** The monad *)

Lemma bind_returned {A B : Type} (c : M A) (k : A -> M B) w a w' :
  c w = (Returned a, w') -> bind c k w = k a w'.
Proof. intros H. unfold bind. rewrite H. reflexivity. Qed.

Lemma bind_inv {A B : Type} (c : M A) (k : A -> M B) w b w'' :
  bind c k w = (Returned b, w'') ->
  exists a w', c w = (Returned a, w') /\ k a w' = (Returned b, w'').
Proof.
  unfold bind. destruct (c w) as [[e | a] w'] eqn:E; intros H.
  - discriminate.
  - exists a, w'. split; [reflexivity | exact H].
Qed.

(** ** The update formula *)




Lemma step_formula_returns model noisy e s a_t sigma a_prev nd rep q temp w :
  exists x_prev noise w',
    step_formula model noisy e s a_t sigma a_prev nd rep q temp w
    = (Returned (x_prev,
                 if q then quantize model (predicted_latent_of noisy e s a_t)
                 else predicted_latent_of noisy e s a_t), w')
    /\ x_prev =
       tadd (tadd (scale (F32.sqrt a_prev)
                     (if q then quantize model (predicted_latent_of noisy e s a_t)
                      else predicted_latent_of noisy e s a_t))
               (direction_term a_prev sigma e)) noise.
Proof.
  unfold step_formula, noise_like, dropout, randn_like, randn_rows, bind, ret.
  destruct rep; destruct (F32.ltb F32.zero nd); simpl; eauto.
Qed.




(** ** Forward noising *)

Lemma gather_length a ts cs :
  gather a ts = Some cs -> List.length cs = List.length ts.
Proof.
  revert cs. induction ts as [| t ts IH]; simpl; intros cs H.
  - inversion H. reflexivity.
  - destruct (nth_error a t); [| discriminate].
    destruct (gather a ts) as [vs |]; [| discriminate].
    inversion H. simpl. f_equal. apply IH. reflexivity.
Qed.

Lemma rows_scale_same_batch cs x w :
  List.length cs = List.length x ->
  rows_scale cs x w = (Returned (rows_scaled cs x), w).
Proof.
  intros H. unfold rows_scale. rewrite H, Nat.eqb_refl. reflexivity.
Qed.

(** C2, as the code has it.  In both samplers [noise_an_image] clamps [t]
    to [0, 1000] and reads its two coefficients from the sub-sampled
    arrays [sqrt(ddim_alphas)] and [ddim_sqrt_one_minus_alphas], which
    have one entry per schedule index: with [t] in the range of those
    arrays the result is [sqrt(ddim_alphas)[t] * x_0 +
    ddim_sqrt_one_minus_alphas[t] * noise], and a [t] beyond the number of
    schedule steps raises. *)
Theorem noise_an_image_reads_the_ddim_arrays :
  forall init_latent t schedule noise w,
    List.length t = List.length init_latent ->
    List.length (fst (noise_or_drawn init_latent noise w))
    = List.length init_latent ->
    let n := fst (noise_or_drawn init_latent noise w) in
    let w' := snd (noise_or_drawn init_latent noise w) in
    let expected :=
      match gather (map F32.sqrt (ddim_alphas schedule)) (clamp_t t),
            gather (ddim_sqrt_one_minus_alphas schedule) (clamp_t t) with
      | Some c1, Some c2 =>
          Returned (tadd (rows_scaled c1 init_latent) (rows_scaled c2 n))
      | _, _ => Raised RuntimeError
      end in
    DDIMSampler.noise_an_image init_latent t schedule noise w = (expected, w')
    /\ PLMSSampler.noise_an_image init_latent t schedule noise w = (expected, w').
Proof.
  intros init t schedule noise w Ht Hn n w' expected.
  assert (H : noise_an_image_body init t schedule noise w = (expected, w')).
  { subst expected n w'. revert Hn.
    unfold noise_an_image_body, bind, extract_into_tensor.
    assert (Hd : (match noise with
                  | Some n => ret n
                  | None => randn_like init
                  end) w
                 = (Returned (fst (noise_or_drawn init noise w)),
                    snd (noise_or_drawn init noise w))).
    { destruct noise; reflexivity. }
    rewrite Hd.
    generalize (fst (noise_or_drawn init noise w)) as n.
    generalize (snd (noise_or_drawn init noise w)) as w1.
    intros w1 n Hn.
    assert (Hc : List.length (clamp_t t) = List.length init)
      by (unfold clamp_t; rewrite length_map; exact Ht).
    destruct (gather (map F32.sqrt (ddim_alphas schedule)) (clamp_t t))
      as [c1 |] eqn:E1; [| reflexivity].
    unfold ret at 1.
    rewrite rows_scale_same_batch
      by (rewrite (gather_length _ _ E1); exact Hc).
    destruct (gather (ddim_sqrt_one_minus_alphas schedule) (clamp_t t))
      as [c2 |] eqn:E2; [| reflexivity].
    unfold ret at 1.
    rewrite rows_scale_same_batch
      by (rewrite (gather_length _ _ E2), Hn; exact Hc).
    reflexivity. }
  split; exact H.
Qed.

(** C2 at work on the three-step schedule of the toy model, at schedule
    index 1. *)
Lemma noise_an_image_reads_the_ddim_arrays_witness :
  exists r,
    DDIMSampler.noise_an_image Toy.x0 [1%Z] toy_schedule (Some Toy.x0) Toy.w0
    = (Returned r, Toy.w0)
    /\ PLMSSampler.noise_an_image Toy.x0 [1%Z] toy_schedule (Some Toy.x0) Toy.w0
       = (Returned r, Toy.w0).
Proof.
  eexists.
  exact (noise_an_image_reads_the_ddim_arrays Toy.x0 [1%Z] toy_schedule
           (Some Toy.x0) Toy.w0 eq_refl eq_refl).
Defined.

(** C2 as the spec words it fails.  The toy model has 12 timesteps and
    its three-step schedule selects the timesteps 1, 5 and 9.  For the
    model timestep [t = 5] the whole-range formula has a value while the
    code raises, because its arrays have three entries; for [t = 0] both
    have a value and the two differ, because the code reads
    [alphas_cumprod[1]] where the formula reads [alphas_cumprod[0]]. *)
Lemma noise_an_image_is_not_whole_range :
  List.length (sqrt_alphas_cumprod toy_schedule) = 12%nat
  /\ List.length (ddim_alphas toy_schedule) = 3%nat
  /\ (exists v, noise_an_image_spec Toy.x0 [5%nat] toy_schedule Toy.x0 = Some v)
  /\ fst (DDIMSampler.noise_an_image Toy.x0 [5%Z] toy_schedule (Some Toy.x0) Toy.w0)
     = Raised RuntimeError
  /\ fst (PLMSSampler.noise_an_image Toy.x0 [5%Z] toy_schedule (Some Toy.x0) Toy.w0)
     = Raised RuntimeError
  /\ (exists v v',
        noise_an_image_spec Toy.x0 [0%nat] toy_schedule Toy.x0 = Some v
        /\ fst (DDIMSampler.noise_an_image Toy.x0 [0%Z] toy_schedule
                  (Some Toy.x0) Toy.w0) = Returned v'
        /\ fst (PLMSSampler.noise_an_image Toy.x0 [0%Z] toy_schedule
                  (Some Toy.x0) Toy.w0) = Returned v'
        /\ v <> v').
Proof.
  repeat split; try (vm_compute; reflexivity).
  - eexists. vm_compute. reflexivity.
  - do 2 eexists. repeat split; try (vm_compute; reflexivity).
    vm_compute. discriminate.
Qed.

(** ** The multistep corrector *)

Lemma from_end_last3 (rest : list Tensor) e3 e2 e1 :
  PLMSSampler.from_end (rest ++ [e3; e2; e1]) 1 = e1
  /\ PLMSSampler.from_end (rest ++ [e3; e2; e1]) 2 = e2
  /\ PLMSSampler.from_end (rest ++ [e3; e2; e1]) 3 = e3.
Proof.
  unfold PLMSSampler.from_end. rewrite rev_app_distr. simpl. auto.
Qed.

(** The world after one more noise prediction has been recorded. *)
Lemma noise_prediction_run model x ts neutral positive g w :
  noise_prediction model x ts neutral positive g w
  = (Returned (get_noise_prediction model x ts neutral positive g),
     World (stream w) (drawn w) (trace w ++ [EvNoisePrediction x ts])).
Proof. reflexivity. Qed.

(** C3.  The corrected noise prediction of PLMS by history depth: with an
    empty history the mean of the current prediction and of the
    prediction re-evaluated at the trial next latent and the next
    timestep; with one entry [(3*current - history[-1]) / 2]; with two
    [(23*current - 16*history[-1] + 5*history[-2]) / 12]; with three or
    more [(55*current - 59*history[-1] + 37*history[-2] - 9*history[-3]) / 24],
    whatever the older entries are. *)
Theorem plms_corrected_prediction_by_history_depth :
  forall model schedule noisy_latent neutral positive guidance_scale
         repeat_noise quantize_denoised temperature noise_dropout t_next
         noise_pred index w,
    let run old_eps :=
      PLMSSampler.e_t_prime model schedule noisy_latent neutral positive
        guidance_scale repeat_noise quantize_denoised temperature
        noise_dropout old_eps t_next noise_pred index w in
    (forall next_latent pred_x0 w1,
        PLMSSampler.get_x_prev_and_pred_x0 model schedule noisy_latent
          repeat_noise quantize_denoised temperature noise_dropout noise_pred
          index w = (Returned (next_latent, pred_x0), w1) ->
        let lookahead_pred :=
          get_noise_prediction model next_latent t_next neutral positive
            guidance_scale in
        run [] =
        (Returned (divide (tadd noise_pred lookahead_pred) (F32.of_Z 2)),
         World (stream w1) (drawn w1)
           (trace w1 ++ [EvNoisePrediction next_latent t_next])))
    /\ (forall e1,
           run [e1] =
           (Returned (divide (tsub (scale (F32.of_Z 3) noise_pred) e1)
                        (F32.of_Z 2)), w))
    /\ (forall e2 e1,
           run [e2; e1] =
           (Returned
              (divide
                 (tadd (tsub (scale (F32.of_Z 23) noise_pred)
                          (scale (F32.of_Z 16) e1))
                    (scale (F32.of_Z 5) e2))
                 (F32.of_Z 12)), w))
    /\ (forall older e3 e2 e1,
           run (older ++ [e3; e2; e1]) =
           (Returned
              (divide
                 (tsub
                    (tadd (tsub (scale (F32.of_Z 55) noise_pred)
                             (scale (F32.of_Z 59) e1))
                       (scale (F32.of_Z 37) e2))
                    (scale (F32.of_Z 9) e3))
                 (F32.of_Z 24)), w)).
Proof.
  intros model schedule noisy neutral positive g rep q temp nd t_next np
    index w run.
  subst run. cbv beta. repeat split.
  - intros next_latent pred_x0 w1 H lookahead.
    unfold PLMSSampler.e_t_prime. cbn [List.length].
    rewrite (bind_returned _ _ _ H). reflexivity.
  - intros older e3 e2 e1.
    unfold PLMSSampler.e_t_prime.
    destruct (from_end_last3 older e3 e2 e1) as (H1 & H2 & H3).
    rewrite H1, H2, H3.
    rewrite length_app. cbn [List.length].
    replace (List.length older + 3)%nat with (S (S (S (List.length older))))
      by lia.
    reflexivity.
Qed.

(** C3 at work: the first PLMS step of the toy model at schedule index 2,
    where the trial step returns. *)
Lemma plms_corrected_prediction_by_history_depth_witness :
  exists r,
    fst (PLMSSampler.e_t_prime Toy.model toy_schedule Toy.x0 Toy.cond Toy.cond
           F32.one false false F32.one F32.zero [] [5%nat]
           (Toy.halve Toy.x0 [9%nat] Toy.cond Toy.cond F32.one) 2 Toy.w0)
    = Returned r.
Proof.
  destruct (PLMSSampler.get_x_prev_and_pred_x0 Toy.model toy_schedule Toy.x0
              false false F32.one F32.zero
              (Toy.halve Toy.x0 [9%nat] Toy.cond Toy.cond F32.one) 2 Toy.w0)
    as [[e | [next_latent pred_x0]] w1] eqn:E.
  - apply (f_equal fst) in E. vm_compute in E. discriminate E.
  - eexists.
    rewrite (proj1 (plms_corrected_prediction_by_history_depth Toy.model
                      toy_schedule Toy.x0 Toy.cond Toy.cond F32.one false
                      false F32.one F32.zero [5%nat]
                      (Toy.halve Toy.x0 [9%nat] Toy.cond Toy.cond F32.one) 2
                      Toy.w0) next_latent pred_x0 w1 E).
    reflexivity.
Defined.

(** ** The history of noise predictions *)

(** Splits a run of [x <- c ;; k] that returned into the run of [c] and
    the run of [k]. *)
Ltac split_bind H :=
  let a := fresh "a" in
  let w := fresh "w" in
  let E := fresh "E" in
  apply bind_inv in H; destruct H as (a & w & E & H).

Lemma for_each_app {S : Type} (body : nat -> nat -> S -> M S) l1 l2 s w :
  for_each body (l1 ++ l2) s w
  = bind (for_each body l1 s) (for_each body l2) w.
Proof.
  revert s w. induction l1 as [| [i step] l1 IH]; intros s w.
  - reflexivity.
  - simpl. unfold bind at 1 2 3.
    destruct (body i step s w) as [[e | s'] w1].
    + reflexivity.
    + rewrite IH. reflexivity.
Qed.

(** What holds of the loop state before the loop and is kept by every
    turn that returns holds after any number of turns. *)
Lemma for_each_invariant {S : Type} (P : S -> Prop)
    (body : nat -> nat -> S -> M S) :
  (forall i step s w s' w',
      P s -> body i step s w = (Returned s', w') -> P s') ->
  forall steps s w s' w',
    P s -> for_each body steps s w = (Returned s', w') -> P s'.
Proof.
  intros Hbody steps.
  induction steps as [| [i step] steps IH]; intros s w s' w' Hs H.
  - inversion H. subst. exact Hs.
  - simpl in H. split_bind H.
    eapply IH; [| exact H]. eapply Hbody; eassumption.
Qed.

Lemma append_and_trim_bounded old_eps noise_pred :
  (List.length old_eps <= 3)%nat ->
  (List.length (PLMSSampler.append_and_trim old_eps noise_pred) <= 3)%nat.
Proof.
  intros H. unfold PLMSSampler.append_and_trim.
  destruct (Nat.leb_spec 4 (List.length (old_eps ++ [noise_pred]))) as [H4 | H4].
  - rewrite length_app in H4. simpl in H4.
    destruct (old_eps ++ [noise_pred]) eqn:E.
    + simpl. lia.
    + assert (L : List.length (old_eps ++ [noise_pred]) = S (List.length l))
        by (rewrite E; reflexivity).
      rewrite length_app in L. simpl in L. simpl. lia.
  - lia.
Qed.

Lemma append_and_trim_newest old_eps noise_pred :
  PLMSSampler.from_end (PLMSSampler.append_and_trim old_eps noise_pred) 1
  = noise_pred.
Proof.
  unfold PLMSSampler.append_and_trim, PLMSSampler.from_end.
  destruct (4 <=? List.length (old_eps ++ [noise_pred]))%nat eqn:E.
  - apply Nat.leb_le in E. rewrite length_app in E. simpl in E.
    destruct old_eps as [| e0 rest]; simpl in E; [lia |].
    simpl tl. rewrite rev_app_distr. reflexivity.
  - rewrite rev_app_distr. reflexivity.
Qed.

(** [p_sample_plms] hands back, as its third result, the prediction the
    model made for the latent it was given. *)
Lemma p_sample_plms_returns_raw model x neutral positive g ts schedule index
    rep q temp nd old_eps t_next w x_prev pred_x0 np w' :
  PLMSSampler.p_sample_plms model x neutral positive g ts schedule index rep q
    temp nd old_eps t_next w = (Returned (x_prev, pred_x0, np), w') ->
  np = get_noise_prediction model x ts neutral positive g.
Proof.
  intros H. unfold PLMSSampler.p_sample_plms in H.
  split_bind H. split_bind H. rewrite noise_prediction_run in E0.
  inversion E0; subst. clear E0.
  split_bind H. split_bind H. destruct a1 as [xp p0].
  split_bind H. split_bind H.
  inversion H. reflexivity.
Qed.

Lemma plms_sample_iteration_history model neutral positive g batch mask orig
    temp nd q schedule time_range total i step x eps w x' eps' w' :
  PLMSSampler.sample_iteration model neutral positive g batch mask orig temp
    nd q schedule time_range total i step (x, eps) w
  = (Returned (x', eps'), w') ->
  exists xin,
    eps' = PLMSSampler.append_and_trim eps
             (get_noise_prediction model xin (full_ts batch step) neutral
                positive g)
    /\ (mask = None -> xin = x).
Proof.
  intros H. unfold PLMSSampler.sample_iteration in H.
  split_bind H. split_bind H. destruct a0 as [[xn pl] np].
  apply p_sample_plms_returns_raw in E0. subst np.
  split_bind H. split_bind H. inversion H; subst.
  exists a. split; [reflexivity |].
  intros Hm. subst mask. inversion E. reflexivity.
Qed.

Lemma plms_decode_iteration_history model neutral positive g schedule initial
    temp mask orig noise time_range total i step x eps w x' eps' w' :
  PLMSSampler.decode_iteration model neutral positive g schedule initial temp
    mask orig noise time_range total i step (x, eps) w
  = (Returned (x', eps'), w') ->
  exists xin,
    eps' = PLMSSampler.append_and_trim eps
             (get_noise_prediction model xin
                (full_ts (List.length initial) step) neutral positive g)
    /\ (mask = None -> xin = x).
Proof.
  intros H. unfold PLMSSampler.decode_iteration in H.
  split_bind H. split_bind H. destruct a0 as [[xn pl] np].
  apply p_sample_plms_returns_raw in E0. subst np.
  split_bind H. split_bind H. inversion H; subst.
  exists a. split; [reflexivity |].
  intros Hm. subst mask. inversion E. reflexivity.
Qed.

(** C5.  In the loops of PLMS [sample] and [decode], a turn that starts
    with at most three entries in [old_eps] ends with at most three, the
    entry it appends is the raw prediction of the model for the latent of
    that turn (the latent of the loop state when there is no mask) and it
    is the newest entry afterwards; started from the empty history, the
    history has at most three entries after any number of turns, and so
    at the end of every call that returns. *)
Theorem plms_history_is_bounded_and_raw :
  forall model neutral positive g batch mask orig temp nd q schedule initial
         noise time_range total,
    let sample_turn :=
      PLMSSampler.sample_iteration model neutral positive g batch mask orig
        temp nd q schedule time_range total in
    let decode_turn :=
      PLMSSampler.decode_iteration model neutral positive g schedule initial
        temp mask orig noise time_range total in
    (forall i step x eps w x' eps' w',
        (List.length eps <= 3)%nat ->
        sample_turn i step (x, eps) w = (Returned (x', eps'), w') ->
        (List.length eps' <= 3)%nat
        /\ exists xin,
            let raw := get_noise_prediction model xin (full_ts batch step)
                         neutral positive g in
            eps' = PLMSSampler.append_and_trim eps raw
            /\ PLMSSampler.from_end eps' 1 = raw
            /\ (mask = None -> xin = x))
    /\ (forall i step x eps w x' eps' w',
        (List.length eps <= 3)%nat ->
        decode_turn i step (x, eps) w = (Returned (x', eps'), w') ->
        (List.length eps' <= 3)%nat
        /\ exists xin,
            let raw := get_noise_prediction model xin
                         (full_ts (List.length initial) step) neutral
                         positive g in
            eps' = PLMSSampler.append_and_trim eps raw
            /\ PLMSSampler.from_end eps' 1 = raw
            /\ (mask = None -> xin = x))
    /\ (forall timesteps k x w x' eps' w',
        for_each sample_turn (firstn k (enumerate_flipped timesteps)) (x, []) w
        = (Returned (x', eps'), w') ->
        (List.length eps' <= 3)%nat)
    /\ (forall timesteps k x w x' eps' w',
        for_each decode_turn (firstn k (enumerate_flipped timesteps)) (x, []) w
        = (Returned (x', eps'), w') ->
        (List.length eps' <= 3)%nat)
    /\ (forall num_steps shape initial_latent w x' eps' w',
        PLMSSampler.sample_with_history model num_steps shape neutral positive
          g batch mask orig temp nd initial_latent q w
        = (Returned (x', eps'), w') ->
        (List.length eps' <= 3)%nat)
    /\ (forall t_start noise_arg w x' eps' w',
        PLMSSampler.decode_with_history model neutral positive g schedule
          initial t_start temp mask orig noise_arg w
        = (Returned (x', eps'), w') ->
        (List.length eps' <= 3)%nat).
Proof.
  intros model neutral positive g batch mask orig temp nd q schedule initial
    noise time_range total sample_turn decode_turn.
  assert (Hloop : forall (body : nat -> nat -> Tensor * list Tensor
                                 -> M (Tensor * list Tensor)),
             (forall i step x eps w x' eps' w',
                 (List.length eps <= 3)%nat ->
                 body i step (x, eps) w = (Returned (x', eps'), w') ->
                 (List.length eps' <= 3)%nat) ->
             forall steps x w x' eps' w',
               for_each body steps (x, []) w = (Returned (x', eps'), w') ->
               (List.length eps' <= 3)%nat).
  { intros body Hb steps x w x' eps' w' H.
    apply (for_each_invariant
             (fun st : Tensor * list Tensor => (List.length (snd st) <= 3)%nat)
             body) with (s' := (x', eps')) in H.
    - exact H.
    - intros i step [y e] w1 [y' e'] w1' Hl Hr. simpl in *.
      exact (Hb i step y e w1 y' e' w1' Hl Hr).
    - simpl. lia. }
  assert (Hs : forall i step x eps w x' eps' w',
             (List.length eps <= 3)%nat ->
             sample_turn i step (x, eps) w = (Returned (x', eps'), w') ->
             (List.length eps' <= 3)%nat
             /\ exists xin,
                 let raw := get_noise_prediction model xin (full_ts batch step)
                              neutral positive g in
                 eps' = PLMSSampler.append_and_trim eps raw
                 /\ PLMSSampler.from_end eps' 1 = raw
                 /\ (mask = None -> xin = x)).
  { intros i step x eps w x' eps' w' Hl H.
    apply plms_sample_iteration_history in H. destruct H as (xin & He & Hm).
    subst eps'. split; [apply append_and_trim_bounded; exact Hl |].
    exists xin. cbv zeta.
    split; [reflexivity | split; [apply append_and_trim_newest | exact Hm]]. }
  assert (Hd : forall i step x eps w x' eps' w',
             (List.length eps <= 3)%nat ->
             decode_turn i step (x, eps) w = (Returned (x', eps'), w') ->
             (List.length eps' <= 3)%nat
             /\ exists xin,
                 let raw := get_noise_prediction model xin
                              (full_ts (List.length initial) step) neutral
                              positive g in
                 eps' = PLMSSampler.append_and_trim eps raw
                 /\ PLMSSampler.from_end eps' 1 = raw
                 /\ (mask = None -> xin = x)).
  { intros i step x eps w x' eps' w' Hl H.
    apply plms_decode_iteration_history in H. destruct H as (xin & He & Hm).
    subst eps'. split; [apply append_and_trim_bounded; exact Hl |].
    exists xin. cbv zeta.
    split; [reflexivity | split; [apply append_and_trim_newest | exact Hm]]. }
  split; [exact Hs | split; [exact Hd | split; [| split; [| split]]]].
  - intros timesteps k. apply Hloop.
    intros i step x eps w x' eps' w' Hl H. exact (proj1 (Hs _ _ _ _ _ _ _ _ Hl H)).
  - intros timesteps k. apply Hloop.
    intros i step x eps w x' eps' w' Hl H. exact (proj1 (Hd _ _ _ _ _ _ _ _ Hl H)).
  - intros num_steps shape initial_latent w x' eps' w' H.
    unfold PLMSSampler.sample_with_history in H.
    destruct (negb (List.length positive =? batch)%nat); [discriminate |].
    split_bind H. split_bind H. split_bind H.
    revert H. apply Hloop.
    intros i step x eps wa y eps2 wb Hl H.
    apply plms_sample_iteration_history in H. destruct H as (xin & He & _).
    subst eps2. apply append_and_trim_bounded. exact Hl.
  - intros t_start noise_arg w x' eps' w' H.
    unfold PLMSSampler.decode_with_history in H.
    split_bind H. split_bind H.
    revert H. apply Hloop.
    intros i step x eps wa y eps2 wb Hl H.
    apply plms_decode_iteration_history in H. destruct H as (xin & He & _).
    subst eps2. apply append_and_trim_bounded. exact Hl.
Qed.

(** C5 at work: a PLMS [sample] of six steps on the toy model. *)
Lemma plms_history_is_bounded_and_raw_witness :
  exists x' eps',
    fst (PLMSSampler.sample_with_history Toy.model 6 (1, 3)%nat Toy.cond
           Toy.cond F32.one 1 None None F32.one F32.zero (Some Toy.x0) false
           Toy.w0)
    = Returned (x', eps')
    /\ (List.length eps' <= 3)%nat.
Proof.
  destruct (PLMSSampler.sample_with_history Toy.model 6 (1, 3)%nat Toy.cond
              Toy.cond F32.one 1 None None F32.one F32.zero (Some Toy.x0)
              false Toy.w0)
    as [[e | [x' eps']] w'] eqn:E.
  - apply (f_equal fst) in E. vm_compute in E. discriminate E.
  - exists x', eps'. split; [reflexivity |].
    exact (proj1 (proj2 (proj2 (proj2 (proj2
             (plms_history_is_bounded_and_raw Toy.model Toy.cond Toy.cond
                F32.one 1 None None F32.one F32.zero false toy_schedule
                Toy.x0 Toy.x0 [] 0)))))
             6%nat (1, 3)%nat (Some Toy.x0) Toy.w0 x' eps' w' E).
Defined.

(** The raw and the corrected prediction are different tensors: after
    the single step of a one-step PLMS [sample] on the toy model the
    history holds the raw prediction, half the initial latent, while the
    corrected prediction of that step is another tensor. *)
Example plms_history_holds_the_raw_prediction :
  let raw := Toy.halve Toy.x0 [1%nat] Toy.cond Toy.cond F32.one in
  (exists x',
      fst (PLMSSampler.sample_with_history Toy.model 1 (1, 3)%nat Toy.cond
             Toy.cond F32.one 1 None None F32.one F32.zero (Some Toy.x0) false
             Toy.w0) = Returned (x', [raw]))
  /\ (exists corrected,
         fst (PLMSSampler.e_t_prime Toy.model toy_schedule_1 Toy.x0 Toy.cond
                Toy.cond F32.one false false F32.one F32.zero [] [1%nat] raw 0
                Toy.w0) = Returned corrected
         /\ corrected <> raw).
Proof.
  split.
  - eexists. vm_compute. reflexivity.
  - eexists. split; [vm_compute; reflexivity |]. vm_compute. discriminate.
Qed.

(** ** Failing fast *)

(** C8.  When the batch dimension of [positive_conditioning] differs from
    [batch_size], [sample] of either sampler raises before anything else
    happens: the world is the one the call started in, so no schedule step
    has run, no noise prediction has been asked for, nothing has been
    drawn and nothing logged. *)
Theorem sample_rejects_a_conditioning_batch_mismatch :
  forall model num_steps shape neutral positive guidance_scale batch_size
         mask orig_latent temperature noise_dropout initial_latent q w,
    List.length positive <> batch_size ->
    DDIMSampler.sample model num_steps shape neutral positive guidance_scale
      batch_size mask orig_latent temperature noise_dropout initial_latent q w
    = (Raised ValueError, w)
    /\ PLMSSampler.sample model num_steps shape neutral positive guidance_scale
         batch_size mask orig_latent temperature noise_dropout initial_latent
         q w
       = (Raised ValueError, w).
Proof.
  intros model num_steps shape neutral positive g batch mask orig temp nd
    init q w H.
  apply Nat.eqb_neq in H.
  unfold DDIMSampler.sample, PLMSSampler.sample,
    PLMSSampler.sample_with_history, bind.
  rewrite H. simpl. split; reflexivity.
Qed.

(** C8 at work: two conditionings for a batch of one. *)
Lemma sample_rejects_a_conditioning_batch_mismatch_witness :
  DDIMSampler.sample Toy.model 3 (1, 3)%nat Toy.cond (Toy.cond ++ Toy.cond)
    F32.one 1 None None F32.one F32.zero (Some Toy.x0) false Toy.w0
  = (Raised ValueError, Toy.w0)
  /\ PLMSSampler.sample Toy.model 3 (1, 3)%nat Toy.cond (Toy.cond ++ Toy.cond)
       F32.one 1 None None F32.one F32.zero (Some Toy.x0) false Toy.w0
     = (Raised ValueError, Toy.w0).
Proof.
  apply sample_rejects_a_conditioning_batch_mismatch.
  simpl. lia.
Defined.

(** ** Mask compositing *)

(** A masked turn of DDIM [sample] is the unmasked turn run on the
    composited latent, in the world [q_sample] leaves behind. *)
Lemma ddim_sample_iteration_masked model neutral positive g batch mask orig
    temp nd q schedule total i step x w :
  let ts := full_ts batch step in
  let img_orig :=
    q_sample_with model orig ts (fill (stream w) (drawn w) (shape_of orig)) in
  DDIMSampler.sample_iteration model neutral positive g batch (Some mask)
    (Some orig) temp nd q schedule total i step x w
  = DDIMSampler.sample_iteration model neutral positive g batch None None temp
      nd q schedule total i step (composite img_orig mask x)
      (World (stream w) (drawn w + list_sum (shape_of orig))
         (trace w ++ [EvQSample orig ts None])).
Proof. reflexivity. Qed.


Lemma ddim_decode_iteration_masked model initial neutral positive g schedule
    temp mask orig total i step x w :
  let ts := full_ts (List.length initial) step in
  let xdec_orig :=
    q_sample_with model orig ts (fill (stream w) (drawn w) (shape_of orig)) in
  let xdec_orig_with_hints :=
    if (i <? 2)%nat then with_hints xdec_orig orig else xdec_orig in
  let composited := composite xdec_orig_with_hints mask x in
  DDIMSampler.decode_iteration model initial neutral positive g schedule temp
    (Some mask) (Some orig) total i step x w
  = DDIMSampler.decode_iteration model initial neutral positive g schedule
      temp None None total i step composited
      (World (stream w) (drawn w + list_sum (shape_of orig))
         (trace w ++ [EvQSample orig ts None;
                      EvLogLatent "xdec_orig" xdec_orig;
                      EvLogLatent "noisy_latent" composited])).
Proof.
  cbv beta iota zeta delta
    [DDIMSampler.decode_iteration bind q_sample emit randn_like randn_rows
     log_latent ret stream drawn trace].
  repeat rewrite <- app_assoc. cbn [app]. reflexivity.
Qed.

Lemma plms_decode_iteration_masked model neutral positive g schedule initial
    temp mask orig noise time_range total i step x eps w :
  let ts := full_ts (List.length initial) step in
  let xdec_orig := q_sample_with model orig ts noise in
  let xdec_orig_with_hints :=
    if (i <? 2)%nat then with_hints xdec_orig orig else xdec_orig in
  let composited := composite xdec_orig_with_hints mask x in
  PLMSSampler.decode_iteration model neutral positive g schedule initial temp
    (Some mask) (Some orig) noise time_range total i step (x, eps) w
  = PLMSSampler.decode_iteration model neutral positive g schedule initial
      temp None None noise time_range total i step (composited, eps)
      (World (stream w) (drawn w)
         (trace w ++ [EvQSample orig ts (Some noise);
                      EvLogLatent
                        ("xdec_orig i=" ++ NilEmpty.string_of_uint (Nat.to_uint i)
                         ++ " index-"
                         ++ NilEmpty.string_of_uint (Nat.to_uint (total - i - 1)))
                        xdec_orig;
                      EvLogLatent ("x_dec " ++ repr_ts ts) composited])).
Proof.
  cbv beta iota zeta delta
    [PLMSSampler.decode_iteration bind q_sample emit randn_like randn_rows
     log_latent ret stream drawn trace].
  repeat rewrite <- app_assoc. cbn [app]. reflexivity.
Qed.


(** The blend is not idle: on the toy model the first masked turn of DDIM
    [decode] and the first masked turn of DDIM [sample] hand different
    latents to the noise predictor. *)
Example hint_blend_changes_the_first_turn :
  let ts := full_ts 1 9 in
  let xdec_orig := q_sample_with Toy.model Toy.x0 ts Toy.x0 in
  composite (with_hints xdec_orig Toy.x0) (full_like Toy.x0 F32.one) Toy.x0
  <> composite xdec_orig (full_like Toy.x0 F32.one) Toy.x0.
Proof. vm_compute. discriminate. Qed.

(** ** What a call appends to the trace *)

Section Appends.

Variable Q : event -> Prop.

Lemma appends_refl w : appends Q w w.
Proof.
  split; [reflexivity |]. exists []. rewrite app_nil_r. auto.
Qed.

Lemma appends_trans w1 w2 w3 :
  appends Q w1 w2 -> appends Q w2 w3 -> appends Q w1 w3.
Proof.
  intros [S1 (n1 & T1 & F1)] [S2 (n2 & T2 & F2)].
  split; [congruence |].
  exists (n1 ++ n2). split.
  - rewrite T2, T1, app_assoc. reflexivity.
  - apply Forall_app. auto.
Qed.

Lemma keeps_ret {A : Type} (a : A) : keeps Q (ret a).
Proof. intros w. apply appends_refl. Qed.

Lemma keeps_raise {A : Type} (e : exn) : keeps Q (@raise A e).
Proof. intros w. apply appends_refl. Qed.

Lemma keeps_bind {A B : Type} (c : M A) (k : A -> M B) :
  keeps Q c -> (forall a, keeps Q (k a)) -> keeps Q (bind c k).
Proof.
  intros Hc Hk w. unfold bind. specialize (Hc w).
  destruct (c w) as [[e | a] w1]; simpl in *.
  - exact Hc.
  - eapply appends_trans; [exact Hc | apply Hk].
Qed.

Lemma keeps_emit e : Q e -> keeps Q (emit e).
Proof.
  intros He w. split; [reflexivity |]. exists [e]. simpl. auto.
Qed.

Lemma keeps_randn_rows lens : keeps Q (randn_rows lens).
Proof.
  intros w. split; [reflexivity |]. exists []. simpl.
  rewrite app_nil_r. auto.
Qed.

Lemma keeps_for_each {S : Type} (body : nat -> nat -> S -> M S) :
  (forall i step s, keeps Q (body i step s)) ->
  forall steps s, keeps Q (for_each body steps s).
Proof.
  intros Hb steps. induction steps as [| [i step] steps IH]; intros s; simpl.
  - apply keeps_ret.
  - apply keeps_bind; [apply Hb | exact IH].
Qed.

End Appends.

(** Walks through a computation written with the primitives of the
    monad. *)
Ltac keeps_step :=
  match goal with
  | |- keeps _ (bind _ _) => apply keeps_bind; [| intros ?]
  | |- keeps _ (ret _) => apply keeps_ret
  | |- keeps _ (raise _) => apply keeps_raise
  | |- keeps _ (emit _) => apply keeps_emit; simpl; auto
  | |- keeps _ (randn_rows _) => apply keeps_randn_rows
  | |- keeps _ (match ?x with _ => _ end) => destruct x
  end.

Ltac keeps_tac :=
  repeat (unfold log_latent, assert, lookup, default_to, randn_like, randn,
            noise_like, dropout, noise_prediction, coefficients, step_formula;
          keeps_step).

Lemma keeps_step_formula Q model x e s a_t sigma a_prev nd rep q temp :
  keeps Q (step_formula model x e s a_t sigma a_prev nd rep q temp).
Proof. keeps_tac. Qed.

Lemma keeps_p_sample_ddim Q model x neutral positive g ts index schedule rep q
    temp nd :
  (forall y t, Q (EvNoisePrediction y t)) ->
  keeps Q (DDIMSampler.p_sample_ddim model x neutral positive g ts index
             schedule rep q temp nd).
Proof.
  intros HQ. unfold DDIMSampler.p_sample_ddim,
    DDIMSampler.p_sample_ddim_formula.
  keeps_tac.
Qed.

Lemma keeps_p_sample_plms Q model x neutral positive g ts schedule index rep q
    temp nd old_eps t_next :
  (forall y t, Q (EvNoisePrediction y t)) ->
  (forall l y, Q (EvLogLatent l y)) ->
  keeps Q (PLMSSampler.p_sample_plms model x neutral positive g ts schedule
             index rep q temp nd old_eps t_next).
Proof.
  intros HQ HL. unfold PLMSSampler.p_sample_plms, PLMSSampler.e_t_prime,
    PLMSSampler.get_x_prev_and_pred_x0.
  keeps_tac.
Qed.

Lemma keeps_plms_decode_iteration model neutral positive g schedule initial
    temp mask orig noise time_range total i step state :
  keeps (carries (Some noise))
    (PLMSSampler.decode_iteration model neutral positive g schedule initial
       temp mask orig noise time_range total i step state).
Proof.
  unfold PLMSSampler.decode_iteration. destruct state as [x eps].
  apply keeps_bind.
  - unfold q_sample. keeps_tac.
  - intros y. apply keeps_bind.
    + apply keeps_p_sample_plms; simpl; auto.
    + intros r. keeps_tac.
Qed.

Lemma keeps_ddim_decode_iteration model initial neutral positive g schedule
    temp mask orig total i step x :
  keeps (carries None)
    (DDIMSampler.decode_iteration model initial neutral positive g schedule
       temp mask orig total i step x).
Proof.
  unfold DDIMSampler.decode_iteration.
  apply keeps_bind.
  - unfold q_sample. keeps_tac.
  - intros y. apply keeps_bind.
    + apply keeps_p_sample_ddim; simpl; auto.
    + intros r. keeps_tac.
Qed.

(** C10.  [PLMSSampler.decode] settles one noise tensor before its loop,
    the [noise] argument or, without one, the first tensor it draws (the
    call then goes on as if that tensor had been passed in); every call
    of [q_sample] it makes is given that tensor, and a masked turn draws
    nothing for [q_sample].  [DDIMSampler.decode] gives [q_sample]
    no noise, so that each masked turn lets it draw afresh, from the
    position the generator has reached. *)
Theorem plms_decode_reuses_one_noise_tensor :
  forall model neutral positive g schedule initial temp mask orig noise w,
    let noise0 :=
      match noise with
      | Some n => n
      | None => fill (stream w) (drawn w) (shape_of initial)
      end in
    (forall t_start,
        appends (carries (Some noise0)) w
          (snd (PLMSSampler.decode model neutral positive g schedule initial
                  t_start temp mask orig noise w)))
    /\ (forall t_start,
           PLMSSampler.decode model neutral positive g schedule initial
             t_start temp mask orig None w
           = PLMSSampler.decode model neutral positive g schedule initial
               t_start temp mask orig
               (Some (fill (stream w) (drawn w) (shape_of initial)))
               (World (stream w) (drawn w + list_sum (shape_of initial))
                  (trace w)))
    /\ (forall m o time_range total i step x eps w1,
           let ts := full_ts (List.length initial) step in
           exists composited w2,
             PLMSSampler.decode_iteration model neutral positive g schedule
               initial temp (Some m) (Some o) noise0 time_range total i step
               (x, eps) w1
             = PLMSSampler.decode_iteration model neutral positive g schedule
                 initial temp None None noise0 time_range total i step
                 (composited, eps) w2
             /\ drawn w2 = drawn w1
             /\ exists rest,
                 trace w2 = trace w1 ++ EvQSample o ts (Some noise0) :: rest)
    /\ (forall t_start,
           appends (carries None) w
             (snd (DDIMSampler.decode model initial neutral positive g t_start
                     schedule temp mask orig w)))
    /\ (forall m o total i step x w1,
           let ts := full_ts (List.length initial) step in
           exists composited w2,
             DDIMSampler.decode_iteration model initial neutral positive g
               schedule temp (Some m) (Some o) total i step x w1
             = DDIMSampler.decode_iteration model initial neutral positive g
                 schedule temp None None total i step composited w2
             /\ drawn w2 = (drawn w1 + list_sum (shape_of o))%nat
             /\ exists rest,
                 trace w2 = trace w1 ++ EvQSample o ts None :: rest).
Proof.
  intros model neutral positive g schedule initial temp mask orig noise w
    noise0.
  split; [| split; [reflexivity | split; [| split]]].
  - intros t_start.
    unfold PLMSSampler.decode, PLMSSampler.decode_with_history.
    set (steps := enumerate_flipped _).
    set (body := PLMSSampler.decode_iteration _ _ _ _ _ _ _ _ _).
    assert (Hloop : forall n time_range total x w1,
               appends (carries (Some n)) w1
                 (snd (bind (for_each (PLMSSampler.decode_iteration model
                                         neutral positive g schedule initial
                                         temp mask orig n time_range total)
                               steps x)
                         (fun r => ret (fst r)) w1))).
    { intros n time_range total x w1.
      apply (@keeps_bind (carries (Some n))).
      - apply keeps_for_each. intros i step s.
        apply keeps_plms_decode_iteration.
      - intros a. apply keeps_ret. }
    subst body.
    assert (Hlog : appends (carries (Some noise0)) w
                     (World (stream w) (drawn w)
                        (trace w ++ [EvLogLatent "x_dec" initial]))).
    { split; [reflexivity |]. exists [EvLogLatent "x_dec" initial].
      split; [reflexivity |]. constructor; simpl; auto. }
    destruct noise as [n |]; subst noise0.
    + eapply appends_trans; [exact Hlog |].
      match goal with
      | |- appends _ ?w1 _ =>
          refine (eq_ind _ (fun z => appends _ w1 (snd z)) (Hloop n _ _ _ w1) _ _)
      end.
      reflexivity.
    + eapply appends_trans; [exact Hlog |].
      eapply appends_trans.
      2:{ match goal with
          | |- appends _ ?w1 _ =>
              refine (eq_ind _ (fun z => appends _ w1 (snd z))
                        (Hloop (fill (stream w) (drawn w) (shape_of initial))
                           _ _ _ w1) _ _)
          end.
          reflexivity. }
      split; [reflexivity |]. exists []. simpl. rewrite app_nil_r. auto.
  - intros m o time_range total i step x eps w1 ts.
    do 2 eexists. split; [apply plms_decode_iteration_masked |].
    split; [reflexivity |]. simpl. eexists. reflexivity.
  - intros t_start. unfold DDIMSampler.decode.
    apply keeps_for_each. intros i step s.
    apply keeps_ddim_decode_iteration.
  - intros m o total i step x w1 ts.
    do 2 eexists. split; [apply ddim_decode_iteration_masked |].
    split; [reflexivity |]. simpl. eexists. reflexivity.
Qed.

(** ** [decode] against [sample] *)

Lemma in_step_refl ws wd : in_step ws wd ws wd.
Proof.
  repeat split; try lia.
  exists [], []. repeat rewrite app_nil_r. auto.
Qed.

Lemma in_step_trans ws wd ws1 wd1 ws2 wd2 :
  in_step ws wd ws1 wd1 -> in_step ws1 wd1 ws2 wd2 -> in_step ws wd ws2 wd2.
Proof.
  intros (S1 & S2 & D & L1 & L2 & ns & nd & T1 & T2 & U)
         (S1' & S2' & D' & L1' & L2' & ns' & nd' & T1' & T2' & U').
  repeat split; try congruence; try lia.
  exists (ns ++ ns'), (nd ++ nd'). repeat split.
  - rewrite T1', T1, app_assoc. reflexivity.
  - rewrite T2', T2, app_assoc. reflexivity.
  - repeat rewrite map_app. congruence.
Qed.

(** Without a mask and without dropout, a turn of [sample] and a turn of
    [decode] on the same latent, from worlds that agree on the generator,
    have the same outcome and stay in step. *)
Lemma ddim_iterations_agree model neutral positive g batch (initial : Tensor)
    temp nd q schedule total orig orig' i step x ws wd :
  List.length initial = batch ->
  F32.ltb F32.zero nd = false ->
  stream ws = stream wd ->
  drawn ws = drawn wd ->
  let rs := DDIMSampler.sample_iteration model neutral positive g batch None
              orig temp nd q schedule total i step x ws in
  let rd := DDIMSampler.decode_iteration model initial neutral positive g
              schedule temp None orig' total i step x wd in
  fst rs = fst rd /\ in_step ws wd (snd rs) (snd rd).
Proof.
  intros Hb Hnd Hs Hd. subst batch.
  destruct ws as [s d ts], wd as [s' d' td]. simpl in Hs, Hd. subst s' d'.
  unfold DDIMSampler.sample_iteration, DDIMSampler.decode_iteration,
    DDIMSampler.p_sample_ddim, DDIMSampler.p_sample_ddim_formula,
    step_formula, coefficients.
  rewrite Hnd.
  change (F32.ltb F32.zero F32.zero) with false.
  cbv beta iota zeta delta
    [bind ret raise emit assert lookup noise_prediction noise_like randn_rows
     log_latent stream drawn trace fst snd].
  destruct (F32.leb F32.one g).
  2:{ split; [reflexivity | apply in_step_refl]. }
  assert (E1 : in_step (World s d ts) (World s d td)
                 (World s d (ts ++ [EvNoisePrediction x
                                      (full_ts (List.length initial) step)]))
                 (World s d (td ++ [EvNoisePrediction x
                                      (full_ts (List.length initial) step)]))).
  { repeat split; simpl; try lia. do 2 eexists. repeat split. }
  destruct (nth_error (ddim_alphas schedule) (total - i - 1)) as [a_t |];
    [| split; [reflexivity | exact E1]].
  destruct (nth_error (ddim_alphas_prev schedule) (total - i - 1)) as [a_prev |];
    [| split; [reflexivity | exact E1]].
  destruct (nth_error (ddim_sigmas schedule) (total - i - 1)) as [sigma_t |];
    [| split; [reflexivity | exact E1]].
  destruct (nth_error (ddim_sqrt_one_minus_alphas schedule) (total - i - 1))
    as [sqrt_one_minus_at |]; [| split; [reflexivity | exact E1]].
  split; [reflexivity |].
  repeat split; simpl; try lia.
  repeat rewrite <- app_assoc. do 2 eexists. repeat split.
Qed.

Lemma ddim_loops_agree model neutral positive g batch (initial : Tensor)
    temp nd q schedule total orig orig' :
  List.length initial = batch ->
  F32.ltb F32.zero nd = false ->
  forall steps x ws wd,
    stream ws = stream wd ->
    drawn ws = drawn wd ->
    let rs := for_each
                (DDIMSampler.sample_iteration model neutral positive g batch
                   None orig temp nd q schedule total) steps x ws in
    let rd := for_each
                (DDIMSampler.decode_iteration model initial neutral positive g
                   schedule temp None orig' total) steps x wd in
    fst rs = fst rd /\ in_step ws wd (snd rs) (snd rd).
Proof.
  intros Hb Hnd steps.
  induction steps as [| [i step] steps IH]; intros x ws wd Hs Hd; simpl.
  - split; [reflexivity | apply in_step_refl].
  - destruct (@ddim_iterations_agree model neutral positive g batch initial
                temp nd q schedule total orig orig' i step x ws wd Hb Hnd Hs
                Hd) as [Hf Hw].
    unfold bind.
    destruct (DDIMSampler.sample_iteration model neutral positive g batch None
                orig temp nd q schedule total i step x ws) as [os ws1].
    destruct (DDIMSampler.decode_iteration model initial neutral positive g
                schedule temp None orig' total i step x wd) as [od wd1].
    simpl in Hf, Hw. subst od.
    destruct os as [e | y].
    + split; [reflexivity | exact Hw].
    + assert (Hs1 : stream ws1 = stream wd1)
        by (destruct Hw as (A & B & _); congruence).
      assert (Hd1 : drawn ws1 = drawn wd1)
        by (destruct Hw as (_ & _ & D & L1 & L2 & _); lia).
      destruct (IH y ws1 wd1 Hs1 Hd1) as [Hf' Hw'].
      split; [exact Hf' |].
      eapply in_step_trans; eassumption.
Qed.

Lemma build_schedule_pure T acp ts eta w :
  snd (build_schedule T acp ts eta w) = w.
Proof.
  unfold build_schedule, bind, lookup.
  destruct (negb (List.length acp =? T)%nat); [reflexivity |].
  destruct (make_ddim_sampling_parameters acp ts eta) as [[[s a] p] |];
    reflexivity.
Qed.

Lemma slice_to_all (l : list nat) :
  slice_to l (Z.of_nat (List.length l)) = l.
Proof.
  unfold slice_to.
  destruct (Z.leb_spec 0 (Z.of_nat (List.length l))); [| lia].
  rewrite Nat2Z.id. apply firstn_all.
Qed.

(** C6, as the code has it.  Without a mask, with [sample]'s
    [noise_dropout] not above zero and with [batch_size] the batch
    dimension of the latent, [decode] called with [t_start] the total
    number of schedule steps, on the schedule that [sample] builds, has the
    outcome of [sample] for the same [initial_latent]: the same final
    latent (or the same exception), the same number of random draws, and,
    after [sample]'s log of the initial latent, the same sequence of noise
    predictions and logged latents up to the labels of the logs. *)
Theorem ddim_decode_matches_sample_without_mask :
  forall model num_steps shape neutral positive g batch temp nd x q schedule
         orig orig' w,
    List.length positive = batch ->
    List.length x = batch ->
    F32.ltb F32.zero nd = false ->
    fst (DDIMSchedule model (num_timesteps model) (alphas_cumprod model)
           num_steps "uniform" F32.zero w) = Returned schedule ->
    let rs := DDIMSampler.sample model num_steps shape neutral positive g batch
                None orig temp nd (Some x) q w in
    let rd := DDIMSampler.decode model x neutral positive g
                (Z.of_nat (List.length (ddim_timesteps schedule))) schedule
                temp None orig' w in
    fst rs = fst rd
    /\ drawn (snd rs) = drawn (snd rd)
    /\ exists evs_s evs_d,
        trace (snd rs) = trace w ++ EvLogLatent "initial latent" x :: evs_s
        /\ trace (snd rd) = trace w ++ evs_d
        /\ map unlabel evs_s = map unlabel evs_d.
Proof.
  intros model num_steps shape neutral positive g batch temp nd x q schedule
    orig orig' w Hp Hx Hnd Hsch rs rd.
  assert (Hrun : DDIMSchedule model (num_timesteps model)
                   (alphas_cumprod model) num_steps "uniform" F32.zero w
                 = (Returned schedule, w)).
  { rewrite (surjective_pairing (DDIMSchedule _ _ _ _ _ _ _)).
    rewrite Hsch. unfold DDIMSchedule. rewrite build_schedule_pure.
    reflexivity. }
  subst rs rd. unfold DDIMSampler.sample, DDIMSampler.decode.
  rewrite Hp, Nat.eqb_refl. cbn [negb].
  rewrite (bind_returned _ _ _ Hrun).
  rewrite slice_to_all.
  cbv beta iota zeta delta [default_to bind ret log_latent emit].
  set (w1 := World (stream w) (drawn w)
               (trace w ++ [EvLogLatent "initial latent" x])).
  destruct (@ddim_loops_agree model neutral positive g batch x temp nd q
              schedule (List.length (ddim_timesteps schedule)) orig orig' Hx
              Hnd (enumerate_flipped (ddim_timesteps schedule)) x w1 w
              eq_refl eq_refl) as [Hf Hw].
  split; [exact Hf |].
  destruct Hw as (_ & _ & D & L1 & L2 & ns & nd' & T1 & T2 & U).
  split; [simpl in D, L1, L2; lia |].
  exists ns, nd'. repeat split; try assumption.
  rewrite T1. simpl. rewrite <- app_assoc. reflexivity.
Qed.

(** C6 at work: three steps on the toy model, no mask. *)
Lemma ddim_decode_matches_sample_without_mask_witness :
  fst (DDIMSampler.sample Toy.model 3 (1, 3)%nat Toy.cond Toy.cond F32.one 1
         None None F32.one F32.zero (Some Toy.x0) false Toy.w0)
  = fst (DDIMSampler.decode Toy.model Toy.x0 Toy.cond Toy.cond F32.one
           (Z.of_nat (List.length (ddim_timesteps toy_schedule))) toy_schedule
           F32.one None None Toy.w0).
Proof.
  assert (H : fst (DDIMSchedule Toy.model (num_timesteps Toy.model)
                     (alphas_cumprod Toy.model) 3 "uniform" F32.zero Toy.w0)
              = Returned toy_schedule) by (vm_compute; reflexivity).
  exact (proj1 (@ddim_decode_matches_sample_without_mask Toy.model 3
                  (1, 3)%nat Toy.cond Toy.cond F32.one 1%nat F32.one F32.zero
                  Toy.x0 false toy_schedule None None Toy.w0 eq_refl eq_refl
                  eq_refl H)).
Defined.

(** C6 as the spec words it fails with a mask.  One step on the toy
    model, the same initial latent, mask and original latent, and the
    schedule [sample] builds: [decode] blends the hint into the kept
    elements, [sample] does not, and the two final latents differ. *)
Lemma ddim_decode_differs_from_sample_with_mask :
  fst (DDIMSchedule Toy.model (num_timesteps Toy.model)
         (alphas_cumprod Toy.model) 1 "uniform" F32.zero Toy.w0)
  = Returned toy_schedule_1
  /\ Z.of_nat (List.length (ddim_timesteps toy_schedule_1)) = 1%Z
  /\ exists xs xd,
      fst (DDIMSampler.sample Toy.model 1 (1, 3)%nat Toy.cond Toy.cond F32.one
             1 (Some toy_mask) (Some toy_orig) F32.one F32.zero (Some Toy.x0)
             false Toy.w0) = Returned xs
      /\ fst (DDIMSampler.decode Toy.model Toy.x0 Toy.cond Toy.cond F32.one 1
                toy_schedule_1 F32.one (Some toy_mask) (Some toy_orig) Toy.w0)
         = Returned xd
      /\ xs <> xd.
Proof.
  split; [vm_compute; reflexivity |].
  split; [reflexivity |].
  do 2 eexists.
  split; [vm_compute; reflexivity |].
  split; [vm_compute; reflexivity |].
  vm_compute. discriminate.
Qed.

(** ** binary32 facts used by the compositing and by the noise term *)











Lemma add_zero_r x z :
  F32.is_zero z = true -> F32.same_number (F32.add x z) x.
Proof.
  destruct z as [sz | | |]; simpl; intros Hz; try discriminate.
  destruct x as [sx | sx | | sx mx ex].
  - right. destruct sz, sx; simpl; auto.
  - left. reflexivity.
  - left. reflexivity.
  - left. reflexivity.
Qed.










(** ** Numbers that differ at most in the sign of a zero *)
















Lemma shape_of_fill g p lens : shape_of (fill g p lens) = lens.
Proof.
  unfold shape_of. revert p. induction lens as [| n lens IH]; intros p; simpl.
  - reflexivity.
  - rewrite length_map, length_seq, IH. reflexivity.
Qed.


Lemma shape_of_tmap f x : shape_of (tmap f x) = shape_of x.
Proof.
  unfold shape_of, tmap. rewrite map_map.
  apply map_ext. intros r. apply length_map.
Qed.



(** ** The update formula when sigma is zero *)

Lemma tadd_zeros d n :
  shape_of n = shape_of d ->
  tall F32.is_zero n = true ->
  trel F32.same_number (tadd d n) d.
Proof.
  unfold trel, tadd, tmap2, shape_of, tall. revert n.
  induction d as [| rd d IH]; intros [| rn n] Hs Hn; try discriminate.
  - constructor.
  - simpl in *. injection Hs as Hl Hs.
    apply andb_prop in Hn. destruct Hn as [Hr Hn].
    constructor; [| apply IH; assumption].
    clear -Hl Hr. revert rn Hl Hr.
    induction rd as [| a rd IH]; intros [| b rn] Hl Hr; try discriminate.
    + constructor.
    + simpl in *. injection Hl as Hl.
      apply andb_prop in Hr. destruct Hr as [Hb Hr].
      constructor; [apply add_zero_r; assumption | apply IH; assumption].
Qed.



(** ** Two runs of DDIM [sample] *)





Lemma build_schedule_any_world T acp ts eta w w' :
  fst (build_schedule T acp ts eta w) = fst (build_schedule T acp ts eta w').
Proof.
  unfold build_schedule, bind, lookup.
  destruct (negb (List.length acp =? T)%nat); [reflexivity |].
  destruct (make_ddim_sampling_parameters acp ts eta) as [[[s a] p] |];
    reflexivity.
Qed.







(* ------------------------------------------------------------------ *)
(** * Further properties of the two samplers *)

(** ** Errors before the loop *)

(** X1.  When the table of cumulative alphas of the model does not have
    one entry per model timestep, the two schedule constructors raise
    [ValueError], and so does [sample] of either sampler for a
    conditioning of the right batch size: nothing has been drawn or
    logged by then. *)
Theorem alpha_table_of_the_wrong_length_is_rejected :
  forall model num_steps shape neutral positive g batch mask orig temp nd
         initial_latent q method eta w,
    List.length (alphas_cumprod model) <> num_timesteps model ->
    List.length positive = batch ->
    DDIMSchedule model (num_timesteps model) (alphas_cumprod model) num_steps
      method eta w = (Raised ValueError, w)
    /\ PLMSSchedule model (num_timesteps model) (alphas_cumprod model)
         num_steps method w = (Raised ValueError, w)
    /\ DDIMSampler.sample model num_steps shape neutral positive g batch mask
         orig temp nd initial_latent q w = (Raised ValueError, w)
    /\ PLMSSampler.sample model num_steps shape neutral positive g batch mask
         orig temp nd initial_latent q w = (Raised ValueError, w).
Proof.
  intros model num_steps shape neutral positive g batch mask orig temp nd
    initial_latent q method eta w Hlen Hb.
  apply Nat.eqb_neq in Hlen.
  assert (Hs : forall ts e,
             build_schedule (num_timesteps model) (alphas_cumprod model) ts e w
             = (Raised ValueError, w)).
  { intros ts e. unfold build_schedule. rewrite Hlen. reflexivity. }
  repeat split.
  - apply Hs.
  - apply Hs.
  - unfold DDIMSampler.sample, DDIMSchedule, bind.
    rewrite Hb, Nat.eqb_refl. cbv beta iota delta [negb].
    rewrite Hs. reflexivity.
  - unfold PLMSSampler.sample, PLMSSampler.sample_with_history, PLMSSchedule,
      bind.
    rewrite Hb, Nat.eqb_refl. cbv beta iota delta [negb].
    rewrite Hs. reflexivity.
Qed.

Lemma alpha_table_of_the_wrong_length_is_rejected_witness :
  DDIMSampler.sample toy_model_short_table 3 (1, 3)%nat Toy.cond Toy.cond
    F32.one 1 None None F32.one F32.zero None false Toy.w0
  = (Raised ValueError, Toy.w0).
Proof.
  refine (proj1 (proj2 (proj2
            (@alpha_table_of_the_wrong_length_is_rejected
               toy_model_short_table 3 (1, 3)%nat Toy.cond Toy.cond F32.one
               1%nat None None F32.one F32.zero None false "uniform" F32.zero
               Toy.w0 _ eq_refl)))).
  simpl. discriminate.
Defined.

(** ** The steps a call of [decode] walks *)

Lemma slice_to_beyond (l : list nat) (t : Z) :
  (Z.of_nat (List.length l) <= t)%Z -> slice_to l t = l.
Proof.
  intros H. unfold slice_to.
  destruct (Z.leb_spec 0 t); [| lia].
  apply firstn_all2. lia.
Qed.

Lemma slice_to_nothing (l : list nat) (t : Z) :
  t = 0%Z \/ (t <= - Z.of_nat (List.length l))%Z -> slice_to l t = [].
Proof.
  intros H. unfold slice_to.
  destruct (Z.leb_spec 0 t) as [Hp | Hn].
  - assert (Ht : t = 0%Z).
    { destruct H as [H | H]; [exact H | lia]. }
    subst t. reflexivity.
  - replace (List.length l - Z.to_nat (- t))%nat with 0%nat by lia.
    reflexivity.
Qed.

Lemma slice_to_some (l : list nat) (t : Z) :
  l <> [] -> (0 < t)%Z -> slice_to l t <> [].
Proof.
  intros Hl Ht. unfold slice_to.
  destruct (Z.leb_spec 0 t); [| lia].
  destruct l as [| a l]; [congruence |].
  destruct (Z.to_nat t) eqn:E; [lia |]. simpl. discriminate.
Qed.

Lemma enumerate_flipped_first (ts : list nat) :
  ts <> [] ->
  exists step rest, enumerate_flipped ts = (0%nat, step) :: rest.
Proof.
  intros H. unfold enumerate_flipped.
  rewrite <- length_rev.
  destruct (rev ts) as [| step r] eqn:E.
  - apply (f_equal (@rev nat)) in E. rewrite rev_involutive in E.
    simpl in E. congruence.
  - simpl. eauto.
Qed.

(** X2.  [decode] clips [t_start] as a Python slice does: a [t_start] at
    or beyond the number of schedule steps walks all of them, so the call
    is the call with [t_start] the number of steps, and for PLMS the call
    without a [t_start]. *)
Theorem decode_clips_t_start :
  forall model initial neutral positive g t_start schedule temp mask orig
         noise w,
    (Z.of_nat (List.length (ddim_timesteps schedule)) <= t_start)%Z ->
    DDIMSampler.decode model initial neutral positive g t_start schedule temp
      mask orig w
    = DDIMSampler.decode model initial neutral positive g
        (Z.of_nat (List.length (ddim_timesteps schedule))) schedule temp mask
        orig w
    /\ PLMSSampler.decode model neutral positive g schedule initial
         (Some t_start) temp mask orig noise w
       = PLMSSampler.decode model neutral positive g schedule initial None
           temp mask orig noise w.
Proof.
  intros model initial neutral positive g t_start schedule temp mask orig
    noise w H.
  unfold DDIMSampler.decode, PLMSSampler.decode,
    PLMSSampler.decode_with_history.
  rewrite (slice_to_beyond _ H), slice_to_all. split; reflexivity.
Qed.

Lemma decode_clips_t_start_witness :
  DDIMSampler.decode Toy.model Toy.x0 Toy.cond Toy.cond F32.one 50
    toy_schedule F32.one None None Toy.w0
  = DDIMSampler.decode Toy.model Toy.x0 Toy.cond Toy.cond F32.one 3
      toy_schedule F32.one None None Toy.w0.
Proof.
  refine (proj1 (@decode_clips_t_start Toy.model Toy.x0 Toy.cond Toy.cond
                   F32.one 50%Z toy_schedule F32.one None None None Toy.w0 _)).
  simpl. lia.
Defined.

(** X3.  With a [t_start] of zero, or so negative that the slice is
    empty, [decode] walks no step.  DDIM [decode] then hands back the
    initial latent and leaves the world as it was, whatever the mask, the
    original latent and the guidance scale are: none of the assertions is
    reached.  PLMS [decode] hands back the initial latent as well, but has
    logged it and, when no noise was passed, has drawn a noise tensor of
    its shape. *)
Theorem decode_of_no_step :
  forall model initial neutral positive g t_start schedule temp mask orig
         noise w,
    t_start = 0%Z
    \/ (t_start <= - Z.of_nat (List.length (ddim_timesteps schedule)))%Z ->
    DDIMSampler.decode model initial neutral positive g t_start schedule temp
      mask orig w = (Returned initial, w)
    /\ PLMSSampler.decode model neutral positive g schedule initial
         (Some t_start) temp mask orig noise w
       = (Returned initial,
          World (stream w)
            (match noise with
             | Some _ => drawn w
             | None => drawn w + list_sum (shape_of initial)
             end)
            (trace w ++ [EvLogLatent "x_dec" initial])).
Proof.
  intros model initial neutral positive g t_start schedule temp mask orig
    noise w H.
  unfold DDIMSampler.decode, PLMSSampler.decode,
    PLMSSampler.decode_with_history.
  rewrite (slice_to_nothing _ H). split; [reflexivity |].
  destruct noise; reflexivity.
Qed.

Lemma decode_of_no_step_witness :
  DDIMSampler.decode Toy.model Toy.x0 Toy.cond Toy.cond F32.zero (-3)
    toy_schedule F32.one (Some toy_mask) None Toy.w0
  = (Returned Toy.x0, Toy.w0).
Proof.
  refine (proj1 (@decode_of_no_step Toy.model Toy.x0 Toy.cond Toy.cond
                   F32.zero (-3)%Z toy_schedule F32.one (Some toy_mask) None
                   None Toy.w0 _)).
  right. simpl. lia.
Defined.

Lemma for_each_first_raises {S : Type} (body : nat -> nat -> S -> M S)
    i step rest s w e w' :
  body i step s w = (Raised e, w') ->
  for_each body ((i, step) :: rest) s w = (Raised e, w').
Proof. intros H. simpl. unfold bind. rewrite H. reflexivity. Qed.

(** X4.  The two assertions of [decode] sit inside the loop: as soon as
    there is a step to walk, a mask without an original latent, and
    without a mask a guidance scale that is not at least 1, make the
    first turn raise [AssertionError] before the model is asked for any
    noise prediction.  DDIM [decode] leaves the world untouched; PLMS
    [decode] has only logged the initial latent and settled its noise. *)
Theorem decode_assertions_fire_on_the_first_step :
  forall model initial neutral positive g t_start schedule temp noise w,
    ddim_timesteps schedule <> [] ->
    (0 < t_start)%Z ->
    (forall mask,
        DDIMSampler.decode model initial neutral positive g t_start schedule
          temp (Some mask) None w = (Raised AssertionError, w)
        /\ exists w',
            PLMSSampler.decode model neutral positive g schedule initial
              (Some t_start) temp (Some mask) None noise w
            = (Raised AssertionError, w')
            /\ trace w' = trace w ++ [EvLogLatent "x_dec" initial])
    /\ (F32.leb F32.one g = false ->
        forall orig,
          DDIMSampler.decode model initial neutral positive g t_start schedule
            temp None orig w = (Raised AssertionError, w)
          /\ exists w',
              PLMSSampler.decode model neutral positive g schedule initial
                (Some t_start) temp None orig noise w
              = (Raised AssertionError, w')
              /\ trace w' = trace w ++ [EvLogLatent "x_dec" initial]).
Proof.
  intros model initial neutral positive g t_start schedule temp noise w Hts Ht.
  destruct (enumerate_flipped_first (slice_to_some Hts Ht))
    as (step & rest & E).
  unfold DDIMSampler.decode, PLMSSampler.decode,
    PLMSSampler.decode_with_history.
  rewrite E. split.
  - intros mask. split.
    + apply for_each_first_raises. reflexivity.
    + destruct noise; eexists; split; reflexivity.
  - intros Hg orig. split.
    + apply for_each_first_raises.
      unfold DDIMSampler.decode_iteration, DDIMSampler.p_sample_ddim, bind,
        assert.
      rewrite Hg. reflexivity.
    + destruct noise; eexists;
        (split;
         [ unfold bind, for_each, PLMSSampler.decode_iteration,
             PLMSSampler.p_sample_plms, assert; rewrite Hg; reflexivity
         | reflexivity ]).
Qed.

Lemma decode_assertions_fire_on_the_first_step_witness :
  DDIMSampler.decode Toy.model Toy.x0 Toy.cond Toy.cond (Toy.ratio 1 2) 2
    toy_schedule F32.one None None Toy.w0
  = (Raised AssertionError, Toy.w0).
Proof.
  refine (proj1 (proj2 (@decode_assertions_fire_on_the_first_step Toy.model
                          Toy.x0 Toy.cond Toy.cond (Toy.ratio 1 2) 2%Z
                          toy_schedule F32.one None Toy.w0 _ _) eq_refl None)).
  - simpl. discriminate.
  - lia.
Defined.

(** ** The schedule entry of a turn *)


Lemma map_snd_combine {A B : Type} (l1 : list A) (l2 : list B) :
  List.length l1 = List.length l2 -> map snd (combine l1 l2) = l2.
Proof.
  revert l2. induction l1 as [| x l1 IH]; intros [| y l2] H; simpl in *;
    try discriminate; [reflexivity |].
  f_equal. apply IH. lia.
Qed.

Lemma map_snd_enumerate_flipped (timesteps : list nat) :
  map snd (enumerate_flipped timesteps) = rev timesteps.
Proof.
  unfold enumerate_flipped. apply map_snd_combine.
  rewrite length_seq, length_rev. reflexivity.
Qed.



(** ** Runs that return *)

Lemma coefficients_pure schedule index w :
  snd (coefficients schedule index w) = w.
Proof.
  unfold coefficients, bind, lookup.
  destruct (nth_error (ddim_alphas schedule) index); [| reflexivity].
  destruct (nth_error (ddim_alphas_prev schedule) index); [| reflexivity].
  destruct (nth_error (ddim_sigmas schedule) index); [| reflexivity].
  destruct (nth_error (ddim_sqrt_one_minus_alphas schedule) index);
    reflexivity.
Qed.

Lemma coefficients_returns schedule index n w :
  covers schedule n -> (index < n)%nat ->
  exists c, coefficients schedule index w = (Returned c, w).
Proof.
  intros (H1 & H2 & H3 & H4) Hi.
  unfold coefficients, bind, lookup.
  destruct (nth_error (ddim_alphas schedule) index) eqn:E1;
    [| apply nth_error_None in E1; lia].
  destruct (nth_error (ddim_alphas_prev schedule) index) eqn:E2;
    [| apply nth_error_None in E2; lia].
  destruct (nth_error (ddim_sigmas schedule) index) eqn:E3;
    [| apply nth_error_None in E3; lia].
  destruct (nth_error (ddim_sqrt_one_minus_alphas schedule) index) eqn:E4;
    [| apply nth_error_None in E4; lia].
  eexists. reflexivity.
Qed.

(** The update formula leaves the trace and the stream as they are. *)
Lemma step_formula_world model x e s a_t sigma a_prev nd rep q temp w :
  trace (snd (step_formula model x e s a_t sigma a_prev nd rep q temp w))
  = trace w
  /\ stream (snd (step_formula model x e s a_t sigma a_prev nd rep q temp w))
     = stream w.
Proof.
  unfold step_formula, noise_like, dropout, randn_like, randn_rows, bind, ret.
  destruct rep; destruct (F32.ltb F32.zero nd); simpl; auto.
Qed.

Lemma p_sample_ddim_returns model x neutral positive g ts index schedule rep q
    temp nd n w :
  F32.leb F32.one g = true ->
  covers schedule n -> (index < n)%nat ->
  exists r w',
    DDIMSampler.p_sample_ddim model x neutral positive g ts index schedule rep
      q temp nd w = (Returned r, w')
    /\ trace w' = trace w ++ [EvNoisePrediction x ts]
    /\ stream w' = stream w.
Proof.
  intros Hg Hc Hi.
  unfold DDIMSampler.p_sample_ddim, DDIMSampler.p_sample_ddim_formula.
  unfold bind at 1. unfold assert. rewrite Hg. unfold ret at 1.
  unfold bind at 1. rewrite noise_prediction_run.
  set (w1 := World (stream w) (drawn w) (trace w ++ [EvNoisePrediction x ts])).
  destruct (coefficients_returns w1 Hc Hi) as ([[[a_t a_prev] sigma] s] & Ec).
  rewrite (bind_returned _ _ _ Ec).
  destruct (step_formula_returns model x
              (get_noise_prediction model x ts neutral positive g) s a_t sigma
              a_prev nd rep false temp w1) as (xp & noise & w2 & R & _).
  destruct (step_formula_world model x
              (get_noise_prediction model x ts neutral positive g) s a_t sigma
              a_prev nd rep false temp w1) as [T S].
  rewrite R in T, S. simpl in T, S.
  do 2 eexists. split; [exact R |]. split; assumption.
Qed.

(** A turn of [p_sample_ddim] that returns has asked the model once. *)
Lemma p_sample_ddim_run model x neutral positive g ts index schedule rep q
    temp nd w r w' :
  DDIMSampler.p_sample_ddim model x neutral positive g ts index schedule rep q
    temp nd w = (Returned r, w') ->
  trace w' = trace w ++ [EvNoisePrediction x ts].
Proof.
  intros H. unfold DDIMSampler.p_sample_ddim,
    DDIMSampler.p_sample_ddim_formula in H.
  apply bind_inv in H. destruct H as (u & wa & Ea & H).
  unfold assert in Ea.
  destruct (F32.leb F32.one g); [| discriminate]. inversion Ea; subst.
  apply bind_inv in H. destruct H as (np & wb & Eb & H).
  rewrite noise_prediction_run in Eb. inversion Eb; subst.
  apply bind_inv in H. destruct H as ([[[a_t a_prev] sigma] s] & wc & Ec & H).
  pose proof (coefficients_pure schedule index
                (World (stream wa) (drawn wa)
                   (trace wa ++ [EvNoisePrediction x ts]))) as Hp.
  rewrite Ec in Hp. simpl in Hp. subst wc.
  pose proof (step_formula_world model x
                (get_noise_prediction model x ts neutral positive g) s a_t
                sigma a_prev nd rep false temp
                (World (stream wa) (drawn wa)
                   (trace wa ++ [EvNoisePrediction x ts]))) as [T _].
  rewrite H in T. exact T.
Qed.

(** ** The model evaluations of a run *)

Lemma prediction_times_app a b :
  prediction_times (a ++ b) = prediction_times a ++ prediction_times b.
Proof.
  induction a as [| e a IH]; simpl; [reflexivity |].
  destruct e; simpl; rewrite IH; reflexivity.
Qed.

Lemma emit_run e w : emit e w = (Returned tt, World (stream w) (drawn w) (trace w ++ [e])).
Proof. reflexivity. Qed.

Lemma ddim_decode_turn_unmasked_run model initial neutral positive g schedule
    temp orig total i step x w y w' :
  DDIMSampler.decode_iteration model initial neutral positive g schedule temp
    None orig total i step x w = (Returned y, w') ->
  prediction_times (trace w')
  = prediction_times (trace w) ++ [full_ts (List.length initial) step].
Proof.
  intros H. unfold DDIMSampler.decode_iteration in H.
  apply bind_inv in H. destruct H as (x0 & wa & Ea & H).
  inversion Ea; subst.
  apply bind_inv in H. destruct H as ([xp p] & wb & Eb & H).
  apply p_sample_ddim_run in Eb.
  cbv beta iota zeta delta [log_latent bind emit ret] in H.
  inversion H; subst. cbn [trace].
  rewrite Eb. rewrite !prediction_times_app. simpl.
  rewrite !app_nil_r. reflexivity.
Qed.

Lemma ddim_sample_turn_unmasked_run model neutral positive g batch orig temp
    nd q schedule total i step x w y w' :
  DDIMSampler.sample_iteration model neutral positive g batch None orig temp
    nd q schedule total i step x w = (Returned y, w') ->
  prediction_times (trace w')
  = prediction_times (trace w) ++ [full_ts batch step].
Proof.
  intros H. unfold DDIMSampler.sample_iteration in H.
  apply bind_inv in H. destruct H as (x0 & wa & Ea & H).
  inversion Ea; subst.
  apply bind_inv in H. destruct H as ([xp p] & wb & Eb & H).
  apply p_sample_ddim_run in Eb.
  cbv beta iota zeta delta [log_latent bind emit ret] in H.
  inversion H; subst. cbn [trace].
  rewrite Eb. rewrite !prediction_times_app. simpl.
  rewrite !app_nil_r. reflexivity.
Qed.

Lemma ddim_decode_turn_run model initial neutral positive g schedule temp mask
    orig total i step x w y w' :
  DDIMSampler.decode_iteration model initial neutral positive g schedule temp
    mask orig total i step x w = (Returned y, w') ->
  prediction_times (trace w')
  = prediction_times (trace w) ++ [full_ts (List.length initial) step].
Proof.
  destruct mask as [m |]; [| apply ddim_decode_turn_unmasked_run].
  destruct orig as [o |]; [| discriminate].
  rewrite ddim_decode_iteration_masked. intros H.
  apply ddim_decode_turn_unmasked_run in H. rewrite H. simpl.
  rewrite prediction_times_app. simpl. rewrite app_nil_r. reflexivity.
Qed.

Lemma ddim_sample_turn_run model neutral positive g batch mask orig temp nd q
    schedule total i step x w y w' :
  DDIMSampler.sample_iteration model neutral positive g batch mask orig temp
    nd q schedule total i step x w = (Returned y, w') ->
  prediction_times (trace w')
  = prediction_times (trace w) ++ [full_ts batch step].
Proof.
  destruct mask as [m |]; [| apply ddim_sample_turn_unmasked_run].
  destruct orig as [o |]; [| discriminate].
  rewrite ddim_sample_iteration_masked. intros H.
  apply ddim_sample_turn_unmasked_run in H. rewrite H. simpl.
  rewrite prediction_times_app. simpl. rewrite app_nil_r. reflexivity.
Qed.

Lemma for_each_prediction_times {S : Type} (body : nat -> nat -> S -> M S)
    (f : nat -> list nat) :
  (forall i step s w s' w',
      body i step s w = (Returned s', w') ->
      prediction_times (trace w') = prediction_times (trace w) ++ [f step]) ->
  forall steps s w s' w',
    for_each body steps s w = (Returned s', w') ->
    prediction_times (trace w')
    = prediction_times (trace w) ++ map f (map snd steps).
Proof.
  intros Hb steps.
  induction steps as [| [i step] steps IH]; intros s w s' w' H.
  - inversion H. subst. simpl. rewrite app_nil_r. reflexivity.
  - simpl in H. apply bind_inv in H. destruct H as (s1 & w1 & E & H).
    apply Hb in E. apply IH in H. rewrite H, E. simpl.
    rewrite <- app_assoc. reflexivity.
Qed.

(** X6.  A call of DDIM [decode] or [sample] that returns has asked the
    model for exactly one noise prediction per step it walked, with or
    without a mask: the time encodings of the predictions it recorded are
    the timesteps of the steps, from the last down to the first, each
    repeated over the batch. *)
Theorem ddim_asks_the_model_once_per_step :
  forall model neutral positive g temp mask orig schedule,
    (forall initial t_start w y w',
        DDIMSampler.decode model initial neutral positive g t_start schedule
          temp mask orig w = (Returned y, w') ->
        prediction_times (trace w')
        = prediction_times (trace w)
          ++ map (full_ts (List.length initial))
               (rev (slice_to (ddim_timesteps schedule) t_start)))
    /\ (forall num_steps shape batch nd initial_latent q w y w',
           fst (DDIMSchedule model (num_timesteps model)
                  (alphas_cumprod model) num_steps "uniform" F32.zero w)
           = Returned schedule ->
           DDIMSampler.sample model num_steps shape neutral positive g batch
             mask orig temp nd initial_latent q w = (Returned y, w') ->
           prediction_times (trace w')
           = prediction_times (trace w)
             ++ map (full_ts batch) (rev (ddim_timesteps schedule))).
Proof.
  intros model neutral positive g temp mask orig schedule. split.
  - intros initial t_start w y w' H. unfold DDIMSampler.decode in H.
    apply (for_each_prediction_times
             (DDIMSampler.decode_iteration model initial neutral positive g
                schedule temp mask orig
                (List.length (slice_to (ddim_timesteps schedule) t_start)))
             (full_ts (List.length initial))) in H.
    + rewrite H.
      rewrite map_snd_enumerate_flipped. reflexivity.
    + intros i step s w0 s' w0' Hr. eapply ddim_decode_turn_run. exact Hr.
  - intros num_steps shape batch nd initial_latent q w y w' Hs H.
    unfold DDIMSampler.sample in H.
    destruct (negb (List.length positive =? batch)%nat); [discriminate |].
    apply bind_inv in H. destruct H as (s0 & wa & Ea & H).
    assert (s0 = schedule /\ wa = w) as [-> ->].
    { rewrite Ea in Hs. simpl in Hs. inversion Hs. split; [reflexivity |].
      unfold DDIMSchedule in Ea.
      pose proof (build_schedule_pure (num_timesteps model)
                    (alphas_cumprod model)
                    (make_ddim_timesteps model "uniform" num_steps
                       (num_timesteps model)) F32.zero w) as Hp.
      rewrite Ea in Hp. exact Hp. }
    apply bind_inv in H. destruct H as (x0 & wb & Eb & H).
    assert (Tb : trace wb = trace w).
    { destruct initial_latent; inversion Eb; reflexivity. }
    apply bind_inv in H. destruct H as (u & wc & Ec & H).
    unfold log_latent in Ec. rewrite emit_run in Ec. inversion Ec; subst.
    apply (for_each_prediction_times
             (DDIMSampler.sample_iteration model neutral positive g batch mask
                orig temp nd q schedule
                (List.length (ddim_timesteps schedule)))
             (full_ts batch)) in H.
    + rewrite H. simpl. rewrite Tb, prediction_times_app. simpl.
      rewrite app_nil_r.
      rewrite map_snd_enumerate_flipped. reflexivity.
    + intros i step s w0 s' w0' Hr. eapply ddim_sample_turn_run. exact Hr.
Qed.

Lemma ddim_asks_the_model_once_per_step_witness :
  exists y w',
    DDIMSampler.decode Toy.model Toy.x0 Toy.cond Toy.cond F32.one 3
      toy_schedule F32.one (Some toy_mask) (Some toy_orig) Toy.w0
    = (Returned y, w')
    /\ prediction_times (trace w') = [[9]; [5]; [1]]%nat.
Proof.
  destruct (DDIMSampler.decode Toy.model Toy.x0 Toy.cond Toy.cond F32.one 3
              toy_schedule F32.one (Some toy_mask) (Some toy_orig) Toy.w0)
    as [[e | y] w'] eqn:E.
  - apply (f_equal fst) in E. vm_compute in E. discriminate E.
  - exists y, w'. split; [reflexivity |].
    exact (proj1 (ddim_asks_the_model_once_per_step Toy.model Toy.cond
                    Toy.cond F32.one F32.one (Some toy_mask) (Some toy_orig)
                    toy_schedule) Toy.x0 3%Z Toy.w0 y w' E).
Defined.

Lemma get_x_prev_world model schedule x rep q temp nd e index w :
  trace (snd (PLMSSampler.get_x_prev_and_pred_x0 model schedule x rep q temp
                nd e index w)) = trace w
  /\ stream (snd (PLMSSampler.get_x_prev_and_pred_x0 model schedule x rep q
                    temp nd e index w)) = stream w.
Proof.
  unfold PLMSSampler.get_x_prev_and_pred_x0, bind.
  pose proof (coefficients_pure schedule index w) as Hp.
  destruct (coefficients schedule index w) as [[ex | [[[a_t a_prev] sigma] s]] w1];
    simpl in Hp; subst w1; [simpl; auto |].
  apply step_formula_world.
Qed.

Lemma get_x_prev_returns model schedule x rep q temp nd e index n w :
  covers schedule n -> (index < n)%nat ->
  exists r w',
    PLMSSampler.get_x_prev_and_pred_x0 model schedule x rep q temp nd e index w
    = (Returned r, w').
Proof.
  intros Hc Hi. unfold PLMSSampler.get_x_prev_and_pred_x0.
  destruct (coefficients_returns w Hc Hi) as ([[[a_t a_prev] sigma] s] & Ec).
  rewrite (bind_returned _ _ _ Ec).
  destruct (step_formula_returns model x e s a_t sigma a_prev nd rep q temp w)
    as (xp & noise & w2 & R & _).
  eauto.
Qed.

Lemma e_t_prime_run model schedule x neutral positive g rep q temp nd old_eps
    t_next np index w e w' :
  PLMSSampler.e_t_prime model schedule x neutral positive g rep q temp nd
    old_eps t_next np index w = (Returned e, w') ->
  prediction_times (trace w')
  = prediction_times (trace w)
    ++ match old_eps with [] => [t_next] | _ :: _ => [] end.
Proof.
  unfold PLMSSampler.e_t_prime.
  destruct old_eps as [| e1 [| e2 [| e3 r]]]; cbn [List.length]; intros H.
  - apply bind_inv in H. destruct H as ([xp p] & wa & Ea & H).
    pose proof (get_x_prev_world model schedule x rep q temp nd np index w)
      as [T _].
    rewrite Ea in T. simpl in T.
    apply bind_inv in H. destruct H as (en & wb & Eb & H).
    rewrite noise_prediction_run in Eb. inversion Eb; subst.
    inversion H; subst. cbn [trace].
    rewrite prediction_times_app, T. reflexivity.
  - inversion H; subst. rewrite app_nil_r. reflexivity.
  - inversion H; subst. rewrite app_nil_r. reflexivity.
  - inversion H; subst. rewrite app_nil_r. reflexivity.
Qed.

Lemma p_sample_plms_run model x neutral positive g ts schedule index rep q
    temp nd old_eps t_next w r w' :
  PLMSSampler.p_sample_plms model x neutral positive g ts schedule index rep q
    temp nd old_eps t_next w = (Returned r, w') ->
  prediction_times (trace w')
  = prediction_times (trace w)
    ++ ts :: match old_eps with [] => [t_next] | _ :: _ => [] end.
Proof.
  intros H. unfold PLMSSampler.p_sample_plms in H.
  apply bind_inv in H. destruct H as (u & wa & Ea & H).
  unfold assert in Ea.
  destruct (F32.leb F32.one g); [| discriminate]. inversion Ea; subst.
  apply bind_inv in H. destruct H as (np & wb & Eb & H).
  rewrite noise_prediction_run in Eb. inversion Eb; subst.
  apply bind_inv in H. destruct H as (e & wc & Ec & H).
  apply e_t_prime_run in Ec. cbn [trace] in Ec.
  apply bind_inv in H. destruct H as ([xp p0] & wd & Ed & H).
  pose proof (get_x_prev_world model schedule x rep q temp nd e index wc)
    as [T _].
  rewrite Ed in T. simpl in T.
  cbv beta iota zeta delta [log_latent bind emit ret] in H.
  inversion H; subst. cbn [trace].
  rewrite !prediction_times_app, T, Ec, prediction_times_app. simpl.
  rewrite !app_nil_r, <- app_assoc. reflexivity.
Qed.

Lemma append_and_trim_not_empty old_eps e :
  PLMSSampler.append_and_trim old_eps e <> [].
Proof.
  unfold PLMSSampler.append_and_trim.
  destruct (4 <=? List.length (old_eps ++ [e]))%nat eqn:E.
  - apply Nat.leb_le in E.
    destruct (old_eps ++ [e]) as [| a [| b l]]; simpl in *; try lia.
    discriminate.
  - destruct old_eps; discriminate.
Qed.

Lemma plms_decode_turn_run model neutral positive g schedule initial temp mask
    orig noise time_range total i step x eps w x' eps' w' :
  PLMSSampler.decode_iteration model neutral positive g schedule initial temp
    mask orig noise time_range total i step (x, eps) w
  = (Returned (x', eps'), w') ->
  prediction_times (trace w')
  = prediction_times (trace w)
    ++ full_ts (List.length initial) step
       :: match eps with
          | [] => [full_ts (List.length initial) (PLMSSampler.next_step time_range i)]
          | _ :: _ => []
          end
  /\ eps' <> [].
Proof.
  assert (Hu : forall y w0,
             PLMSSampler.decode_iteration model neutral positive g schedule
               initial temp None None noise time_range total i step (y, eps) w0
             = (Returned (x', eps'), w') ->
             prediction_times (trace w')
             = prediction_times (trace w0)
               ++ full_ts (List.length initial) step
                  :: match eps with
                     | [] => [full_ts (List.length initial)
                                (PLMSSampler.next_step time_range i)]
                     | _ :: _ => []
                     end
             /\ eps' <> []).
  { intros y w0 H. unfold PLMSSampler.decode_iteration in H.
    apply bind_inv in H. destruct H as (x0 & wa & Ea & H).
    inversion Ea; subst.
    apply bind_inv in H. destruct H as ([[xp p] np] & wb & Eb & H).
    apply p_sample_plms_run in Eb.
    cbv beta iota zeta delta [log_latent bind emit ret] in H.
    inversion H; subst. cbn [trace]. split.
    - rewrite !prediction_times_app, Eb. simpl. rewrite !app_nil_r.
      reflexivity.
    - apply append_and_trim_not_empty. }
  destruct mask as [m |].
  - destruct orig as [o |]; [| discriminate].
    rewrite plms_decode_iteration_masked. intros H.
    apply Hu in H. destruct H as [H Hn]. split; [| exact Hn].
    rewrite H. simpl. rewrite prediction_times_app. simpl.
    rewrite app_nil_r. reflexivity.
  - intros H. destruct orig; exact (Hu x w H).
Qed.

Lemma plms_decode_loop_run model neutral positive g schedule initial temp mask
    orig noise time_range total :
  let turn := PLMSSampler.decode_iteration model neutral positive g schedule
                initial temp mask orig noise time_range total in
  let ts := full_ts (List.length initial) in
  (forall steps x eps w x' eps' w',
      eps <> [] ->
      for_each turn steps (x, eps) w = (Returned (x', eps'), w') ->
      prediction_times (trace w')
      = prediction_times (trace w) ++ map ts (map snd steps))
  /\ (forall i step rest x w x' eps' w',
         for_each turn ((i, step) :: rest) (x, []) w
         = (Returned (x', eps'), w') ->
         prediction_times (trace w')
         = prediction_times (trace w)
           ++ ts step :: ts (PLMSSampler.next_step time_range i)
              :: map ts (map snd rest)).
Proof.
  intros turn ts.
  assert (Hne : forall steps x eps w x' eps' w',
             eps <> [] ->
             for_each turn steps (x, eps) w = (Returned (x', eps'), w') ->
             prediction_times (trace w')
             = prediction_times (trace w) ++ map ts (map snd steps)).
  { induction steps as [| [i step] steps IH]; intros x eps w x' eps' w' He H.
    - inversion H. subst. simpl. rewrite app_nil_r. reflexivity.
    - simpl in H. apply bind_inv in H.
      destruct H as ([x1 eps1] & w1 & E & H).
      apply plms_decode_turn_run in E. destruct E as [E Hn].
      apply IH in H; [| exact Hn]. rewrite H, E.
      destruct eps as [| e0 eps]; [congruence |].
      simpl. rewrite <- app_assoc. reflexivity. }
  split; [exact Hne |].
  intros i step rest x w x' eps' w' H.
  simpl in H. apply bind_inv in H. destruct H as ([x1 eps1] & w1 & E & H).
  apply plms_decode_turn_run in E. destruct E as [E Hn].
  apply Hne in H; [| exact Hn]. rewrite H, E.
  rewrite <- app_assoc. reflexivity.
Qed.

Lemma enumerate_flipped_walk (timesteps : list nat) t0 rest :
  rev timesteps = t0 :: rest ->
  exists steps,
    enumerate_flipped timesteps = (0%nat, t0) :: steps
    /\ map snd steps = rest.
Proof.
  intros H. unfold enumerate_flipped.
  rewrite <- length_rev, H. simpl.
  eexists. split; [reflexivity |].
  apply map_snd_combine. apply length_seq.
Qed.

Lemma next_step_first t0 rest :
  PLMSSampler.next_step (t0 :: rest) 0 = hd t0 rest.
Proof. destruct rest; reflexivity. Qed.

(** X7.  A call of PLMS [decode] that returns has asked the model once
    per step and once more on the first step: the time encodings of its
    predictions are the first timestep of the walk, then the timestep of
    the look-ahead, which is the second timestep of the walk or, for a
    walk of one step, the first again, then the remaining timesteps.  A
    walk of [n >= 1] steps costs [n + 1] evaluations of the model. *)
Theorem plms_decode_asks_the_model_once_more :
  forall model neutral positive g schedule initial t_start temp mask orig
         noise w y w',
    PLMSSampler.decode model neutral positive g schedule initial t_start temp
      mask orig noise w = (Returned y, w') ->
    let timesteps :=
      match t_start with
      | Some t => slice_to (ddim_timesteps schedule) t
      | None => ddim_timesteps schedule
      end in
    let ts := full_ts (List.length initial) in
    prediction_times (trace w')
    = prediction_times (trace w)
      ++ match rev timesteps with
         | [] => []
         | t0 :: rest => ts t0 :: ts (hd t0 rest) :: map ts rest
         end.
Proof.
  intros model neutral positive g schedule initial t_start temp mask orig
    noise w y w' H timesteps ts.
  unfold PLMSSampler.decode, PLMSSampler.decode_with_history in H.
  fold timesteps in H.
  apply bind_inv in H. destruct H as ([y0 eps] & wa & Ea & H).
  inversion H; subst. clear H.
  apply bind_inv in Ea. destruct Ea as (u & wb & Eb & H).
  unfold log_latent in Eb. rewrite emit_run in Eb. inversion Eb; subst.
  apply bind_inv in H. destruct H as (n0 & wc & Ec & H).
  assert (Tc : trace wc = trace w ++ [EvLogLatent "x_dec" initial]).
  { destruct noise; inversion Ec; reflexivity. }
  assert (Pc : prediction_times (trace wc) = prediction_times (trace w)).
  { rewrite Tc, prediction_times_app. simpl. apply app_nil_r. }
  destruct (rev timesteps) as [| t0 rest] eqn:Er.
  - assert (timesteps = []) as Hn.
    { apply (f_equal (@rev nat)) in Er. rewrite rev_involutive in Er.
      exact Er. }
    rewrite Hn in H. inversion H; subst. rewrite Pc, app_nil_r. reflexivity.
  - destruct (enumerate_flipped_walk timesteps Er) as (steps & Es & Hs).
    rewrite Es in H.
    apply (proj2 (plms_decode_loop_run model neutral positive g schedule
                    initial temp mask orig n0 (t0 :: rest)
                    (List.length timesteps))) in H.
    rewrite H, Pc, Hs, next_step_first. reflexivity.
Qed.

Lemma plms_decode_asks_the_model_once_more_witness :
  exists y w',
    PLMSSampler.decode Toy.model Toy.cond Toy.cond F32.one toy_schedule Toy.x0
      None F32.one None None None Toy.w0 = (Returned y, w')
    /\ prediction_times (trace w') = [[9]; [5]; [5]; [1]]%nat.
Proof.
  destruct (PLMSSampler.decode Toy.model Toy.cond Toy.cond F32.one toy_schedule
              Toy.x0 None F32.one None None None Toy.w0)
    as [[e | y] w'] eqn:E.
  - apply (f_equal fst) in E. vm_compute in E. discriminate E.
  - exists y, w'. split; [reflexivity |].
    exact (@plms_decode_asks_the_model_once_more Toy.model Toy.cond Toy.cond
             F32.one toy_schedule Toy.x0 None F32.one None None None Toy.w0 y
             w' E).
Defined.

(** ** Calls that cannot fail *)

Lemma for_each_returns {S : Type} (body : nat -> nat -> S -> M S) steps :
  (forall i step s w, exists s' w', body i step s w = (Returned s', w')) ->
  forall s w, exists s' w', for_each body steps s w = (Returned s', w').
Proof.
  intros Hb. induction steps as [| [i step] steps IH]; intros s w; simpl.
  - do 2 eexists. reflexivity.
  - destruct (Hb i step s w) as (s1 & w1 & E).
    rewrite (bind_returned _ _ _ E). apply IH.
Qed.

Lemma ddim_decode_turn_returns model initial neutral positive g schedule temp
    mask orig total i step x w :
  F32.leb F32.one g = true ->
  mask = None \/ orig <> None ->
  covers schedule total -> (0 < total)%nat ->
  exists y w',
    DDIMSampler.decode_iteration model initial neutral positive g schedule
      temp mask orig total i step x w = (Returned y, w').
Proof.
  intros Hg Hm Hc Ht.
  assert (Hu : forall y w0,
             exists z w',
               DDIMSampler.decode_iteration model initial neutral positive g
                 schedule temp None None total i step y w0
               = (Returned z, w')).
  { intros y w0. unfold DDIMSampler.decode_iteration.
    unfold bind at 1. unfold ret at 1.
    destruct (@p_sample_ddim_returns model y neutral positive g
                (full_ts (List.length initial) step) (total - i - 1) schedule
                false false temp F32.zero total w0 Hg Hc ltac:(lia))
      as ([xp p] & w1 & R & _).
    rewrite (bind_returned _ _ _ R).
    do 2 eexists. reflexivity. }
  destruct mask as [m |].
  - destruct orig as [o |]; [| destruct Hm; congruence].
    rewrite ddim_decode_iteration_masked. apply Hu.
  - destruct orig; apply Hu.
Qed.

Lemma p_sample_plms_returns model x neutral positive g ts schedule index rep q
    temp nd old_eps t_next n w :
  F32.leb F32.one g = true ->
  covers schedule n -> (index < n)%nat ->
  exists r w',
    PLMSSampler.p_sample_plms model x neutral positive g ts schedule index rep
      q temp nd old_eps t_next w = (Returned r, w').
Proof.
  intros Hg Hc Hi.
  unfold PLMSSampler.p_sample_plms.
  unfold bind at 1. unfold assert. rewrite Hg. unfold ret at 1.
  unfold bind at 1. rewrite noise_prediction_run.
  set (np := get_noise_prediction model x ts neutral positive g).
  set (w1 := World (stream w) (drawn w) (trace w ++ [EvNoisePrediction x ts])).
  assert (He : exists e w2,
             PLMSSampler.e_t_prime model schedule x neutral positive g rep q
               temp nd old_eps t_next np index w1 = (Returned e, w2)).
  { unfold PLMSSampler.e_t_prime.
    destruct old_eps as [| e1 [| e2 [| e3 r]]]; cbn [List.length];
      try (do 2 eexists; reflexivity).
    destruct (@get_x_prev_returns model schedule x rep q temp nd np index n w1
                Hc Hi) as ([xp p] & w2 & R).
    rewrite (bind_returned _ _ _ R).
    do 2 eexists. reflexivity. }
  destruct He as (e & w2 & Re).
  rewrite (bind_returned _ _ _ Re).
  destruct (@get_x_prev_returns model schedule x rep q temp nd e index n w2
              Hc Hi) as ([xp p] & w3 & R).
  rewrite (bind_returned _ _ _ R).
  do 2 eexists. reflexivity.
Qed.

Lemma plms_decode_turn_returns model neutral positive g schedule initial temp
    mask orig noise time_range total i step state w :
  F32.leb F32.one g = true ->
  mask = None \/ orig <> None ->
  covers schedule total -> (0 < total)%nat ->
  exists state' w',
    PLMSSampler.decode_iteration model neutral positive g schedule initial
      temp mask orig noise time_range total i step state w
    = (Returned state', w').
Proof.
  intros Hg Hm Hc Ht. destruct state as [x eps].
  assert (Hu : forall y w0,
             exists z w',
               PLMSSampler.decode_iteration model neutral positive g schedule
                 initial temp None None noise time_range total i step (y, eps)
                 w0 = (Returned z, w')).
  { intros y w0. unfold PLMSSampler.decode_iteration.
    unfold bind at 1. unfold ret at 1.
    destruct (@p_sample_plms_returns model y neutral positive g
                (full_ts (List.length initial) step) schedule (total - i - 1)
                false false temp F32.zero eps
                (full_ts (List.length initial)
                   (PLMSSampler.next_step time_range i)) total w0 Hg Hc
                ltac:(lia)) as ([[xp p] np] & w1 & R).
    rewrite (bind_returned _ _ _ R).
    do 2 eexists. reflexivity. }
  destruct mask as [m |].
  - destruct orig as [o |]; [| destruct Hm; congruence].
    rewrite plms_decode_iteration_masked. apply Hu.
  - destruct orig; apply Hu.
Qed.

(** X8.  [decode] cannot fail for the reasons the loop checks once they
    are ruled out: with a guidance scale of at least 1, with an original
    latent whenever there is a mask, and with the four coefficient arrays
    of the schedule at least as long as the number of steps walked, a call
    of [decode] of either sampler returns a latent.  In particular no
    value of the latent, of the noise prediction or of the coefficients
    (a NaN, an infinity, a zero alpha) makes it raise.  The tensors are
    taken to be of one shape, as everywhere in this development: the
    elementwise operations on them are total here. *)
Theorem decode_returns_when_its_checks_pass :
  forall model initial neutral positive g t_start schedule temp mask orig
         noise w,
    F32.leb F32.one g = true ->
    mask = None \/ orig <> None ->
    covers schedule (List.length (slice_to (ddim_timesteps schedule) t_start)) ->
    (exists y w',
        DDIMSampler.decode model initial neutral positive g t_start schedule
          temp mask orig w = (Returned y, w'))
    /\ (exists y w',
           PLMSSampler.decode model neutral positive g schedule initial
             (Some t_start) temp mask orig noise w = (Returned y, w')).
Proof.
  intros model initial neutral positive g t_start schedule temp mask orig
    noise w Hg Hm Hc.
  set (timesteps := slice_to (ddim_timesteps schedule) t_start) in *.
  destruct timesteps as [| t0 rest] eqn:Et.
  - split.
    + unfold DDIMSampler.decode. fold timesteps. rewrite Et.
      do 2 eexists. reflexivity.
    + unfold PLMSSampler.decode, PLMSSampler.decode_with_history.
      fold timesteps. rewrite Et.
      destruct noise; do 2 eexists; reflexivity.
  - assert (Hpos : (0 < List.length (t0 :: rest))%nat) by (simpl; lia).
    split.
    + unfold DDIMSampler.decode. fold timesteps. rewrite Et.
      apply for_each_returns. intros i step s w0.
      apply ddim_decode_turn_returns; assumption.
    + unfold PLMSSampler.decode, PLMSSampler.decode_with_history.
      fold timesteps. rewrite Et.
      assert (Hl : forall n0 w0,
                 exists s' w',
                   for_each
                     (PLMSSampler.decode_iteration model neutral positive g
                        schedule initial temp mask orig n0 (rev (t0 :: rest))
                        (List.length (t0 :: rest)))
                     (enumerate_flipped (t0 :: rest)) (initial, []) w0
                   = (Returned s', w')).
      { intros n0 w0. apply for_each_returns. intros i step s w1.
        apply plms_decode_turn_returns; assumption. }
      destruct noise as [n0 |].
      * destruct (Hl n0 (World (stream w) (drawn w)
                           (trace w ++ [EvLogLatent "x_dec" initial])))
          as ([y eps] & w' & R).
        exists y, w'.
        cbv beta iota zeta delta [bind log_latent emit default_to ret].
        cbv beta iota zeta delta [bind log_latent emit default_to ret] in R.
        rewrite R. reflexivity.
      * destruct (Hl (fill (stream w) (drawn w) (shape_of initial))
                    (World (stream w)
                       (drawn w + list_sum (shape_of initial))
                       (trace w ++ [EvLogLatent "x_dec" initial])))
          as ([y eps] & w' & R).
        exists y, w'.
        cbv beta iota zeta delta
          [bind log_latent emit default_to ret randn_like randn_rows stream
           drawn trace].
        cbv beta iota zeta delta
          [bind log_latent emit default_to ret randn_like randn_rows stream
           drawn trace] in R.
        rewrite R. reflexivity.
Qed.

Lemma decode_returns_when_its_checks_pass_witness :
  exists y w',
    DDIMSampler.decode Toy.model Toy.x0 Toy.cond Toy.cond F32.one 3
      toy_schedule F32.one None None Toy.w0 = (Returned y, w').
Proof.
  refine (proj1 (@decode_returns_when_its_checks_pass Toy.model Toy.x0
                   Toy.cond Toy.cond F32.one 3%Z toy_schedule F32.one None
                   None None Toy.w0 eq_refl (or_introl eq_refl) _)).
  unfold covers. simpl. lia.
Defined.

(** ** The history as a window *)

Lemma fold_left_snoc {A B : Type} (f : A -> B -> A) l b a :
  fold_left f (l ++ [b]) a = f (fold_left f l a) b.
Proof. rewrite fold_left_app. reflexivity. Qed.

(** X9.  Appending the predictions of successive steps to an empty
    history, each time followed by the eviction
    [if len(old_eps) >= 4: old_eps.pop(0)], leaves the last three of them
    in the order they were made, oldest first (all of them while there
    are at most three): [old_eps[-1]] is always the prediction of the
    step before, [old_eps[-2]] the one before that. *)
Theorem history_is_the_last_three_predictions :
  forall (predictions : list Tensor),
    fold_left PLMSSampler.append_and_trim predictions []
    = skipn (List.length predictions - 3) predictions.
Proof.
  intros es. induction es as [| e es IH] using rev_ind.
  - reflexivity.
  - rewrite fold_left_snoc, IH. unfold PLMSSampler.append_and_trim.
    rewrite !length_app, length_skipn. cbn [List.length].
    destruct (Nat.leb_spec 4 (List.length es - (List.length es - 3) + 1))
      as [H4 | H4].
    + assert (Hn : (3 <= List.length es)%nat) by lia.
      rewrite skipn_app.
      replace (List.length es + 1 - 3 - List.length es)%nat with 0%nat by lia.
      replace (List.length es + 1 - 3)%nat
        with (1 + (List.length es - 3))%nat by lia.
      rewrite <- skipn_skipn. cbn [skipn].
      destruct (skipn (List.length es - 3) es) as [| a l] eqn:E.
      * apply (f_equal (@List.length Tensor)) in E.
        rewrite length_skipn in E. simpl in E. lia.
      * reflexivity.
    + assert (Hn : (List.length es < 3)%nat) by lia.
      replace (List.length es - 3)%nat with 0%nat by lia.
      replace (List.length es + 1 - 3)%nat with 0%nat by lia.
      reflexivity.
Qed.

(** ** [noise_an_image] at its bounds *)

Lemma clamp_t_idempotent t :
  clamp_t (map (fun z => Z.max 0 (Z.min z 1000)) t) = clamp_t t.
Proof.
  unfold clamp_t. rewrite map_map. apply map_ext. intros z. f_equal. lia.
Qed.

(** X10.  [noise_an_image] clamps its index into [0, 1000] before it
    reads the schedule: a negative [t] acts as 0, and does not count from
    the end of the array as a Python index would, and a [t] above 1000
    acts as 1000.  The call is the call on the clamped index, for both
    samplers. *)
Theorem noise_an_image_clamps_its_index :
  forall init_latent t schedule noise w,
    let clamped := map (fun z => Z.max 0 (Z.min z 1000)) t in
    DDIMSampler.noise_an_image init_latent t schedule noise w
    = DDIMSampler.noise_an_image init_latent clamped schedule noise w
    /\ PLMSSampler.noise_an_image init_latent t schedule noise w
       = PLMSSampler.noise_an_image init_latent clamped schedule noise w
    /\ (Forall (fun z => (z <= 0)%Z) t ->
        DDIMSampler.noise_an_image init_latent t schedule noise w
        = DDIMSampler.noise_an_image init_latent (map (fun _ => 0%Z) t)
            schedule noise w).
Proof.
  intros init t schedule noise w clamped.
  unfold DDIMSampler.noise_an_image, PLMSSampler.noise_an_image,
    noise_an_image_body.
  subst clamped. rewrite clamp_t_idempotent.
  split; [reflexivity | split; [reflexivity |]].
  intros Hneg.
  replace (clamp_t (map (fun _ => 0%Z) t)) with (clamp_t t); [reflexivity |].
  unfold clamp_t. rewrite map_map.
  induction Hneg as [| z l Hz Hl IH]; simpl; [reflexivity |].
  rewrite IH. f_equal. lia.
Qed.

Lemma noise_an_image_clamps_its_index_witness :
  DDIMSampler.noise_an_image Toy.x0 [(-1)%Z] toy_schedule (Some Toy.x0) Toy.w0
  = DDIMSampler.noise_an_image Toy.x0 [0%Z] toy_schedule (Some Toy.x0) Toy.w0.
Proof.
  refine (proj2 (proj2 (noise_an_image_clamps_its_index Toy.x0 [(-1)%Z]
                          toy_schedule (Some Toy.x0) Toy.w0)) _).
  repeat constructor. lia.
Defined.

(** X11.  Whatever its outcome, [noise_an_image] records no event, and
    it draws its noise before it looks the coefficients up: with a noise
    tensor passed the generator is left where it was, without one it has
    advanced by the number of elements of the latent, also when the call
    then raises for an index out of range. *)
Theorem noise_an_image_draws_before_it_indexes :
  forall init_latent t schedule noise w,
    let w' := snd (DDIMSampler.noise_an_image init_latent t schedule noise w) in
    trace w' = trace w
    /\ stream w' = stream w
    /\ drawn w'
       = (drawn w
          + match noise with
            | Some _ => 0
            | None => list_sum (shape_of init_latent)
            end)%nat
    /\ snd (PLMSSampler.noise_an_image init_latent t schedule noise w) = w'.
Proof.
  intros init t schedule noise w w'. subst w'.
  unfold DDIMSampler.noise_an_image, PLMSSampler.noise_an_image,
    noise_an_image_body.
  assert (Hrs : forall cs x w0, snd (rows_scale cs x w0) = w0).
  { intros cs x w0. unfold rows_scale.
    destruct (List.length cs =? List.length x)%nat; [reflexivity |].
    destruct cs as [| c [| c' cs]]; destruct x as [| r [| r' x]]; reflexivity. }
  assert (Hrest : forall n w0,
             snd ((c1 <- extract_into_tensor
                           (map F32.sqrt (ddim_alphas schedule)) (clamp_t t) ;;
                   x1 <- rows_scale c1 init ;;
                   c2 <- extract_into_tensor
                           (ddim_sqrt_one_minus_alphas schedule) (clamp_t t) ;;
                   x2 <- rows_scale c2 n ;;
                   ret (tadd x1 x2)) w0) = w0).
  { intros n w0. unfold bind, extract_into_tensor.
    destruct (gather (map F32.sqrt (ddim_alphas schedule)) (clamp_t t))
      as [c1 |]; [| reflexivity].
    unfold ret at 1.
    pose proof (Hrs c1 init w0) as H1.
    destruct (rows_scale c1 init w0) as [[e | x1] w1]; simpl in H1; subst w1;
      [reflexivity |].
    destruct (gather (ddim_sqrt_one_minus_alphas schedule) (clamp_t t))
      as [c2 |]; [| reflexivity].
    unfold ret at 1.
    pose proof (Hrs c2 n w0) as H2.
    destruct (rows_scale c2 n w0) as [[e | x2] w2]; simpl in H2; subst w2;
      reflexivity. }
  assert (Hb : snd (noise_an_image_body init t schedule noise w)
               = match noise with
                 | Some _ => w
                 | None =>
                     World (stream w) (drawn w + list_sum (shape_of init))
                       (trace w)
                 end).
  { unfold noise_an_image_body. destruct noise as [n |].
    - erewrite bind_returned by reflexivity. apply Hrest.
    - erewrite bind_returned by reflexivity. apply Hrest. }
  fold (noise_an_image_body init t schedule noise). rewrite Hb.
  destruct noise; simpl; repeat split; lia.
Qed.

(** ** Arguments that have no effect *)

(** X12.  [noise_dropout] is applied only when it is above zero: with a
    zero, a negative or a NaN [noise_dropout] a call of [sample] of either
    sampler is the call with [noise_dropout = 0.0], and
    [torch.nn.functional.dropout] is not reached. *)
Theorem dropout_applies_only_above_zero :
  forall model num_steps shape neutral positive g batch mask orig temp nd
         initial_latent q w,
    F32.ltb F32.zero nd = false ->
    DDIMSampler.sample model num_steps shape neutral positive g batch mask
      orig temp nd initial_latent q w
    = DDIMSampler.sample model num_steps shape neutral positive g batch mask
        orig temp F32.zero initial_latent q w
    /\ PLMSSampler.sample model num_steps shape neutral positive g batch mask
         orig temp nd initial_latent q w
       = PLMSSampler.sample model num_steps shape neutral positive g batch
           mask orig temp F32.zero initial_latent q w.
Proof.
  intros model num_steps shape neutral positive g batch mask orig temp nd
    initial_latent q w Hnd.
  unfold DDIMSampler.sample, DDIMSampler.sample_iteration,
    DDIMSampler.p_sample_ddim, DDIMSampler.p_sample_ddim_formula,
    PLMSSampler.sample, PLMSSampler.sample_with_history,
    PLMSSampler.sample_iteration, PLMSSampler.p_sample_plms,
    PLMSSampler.e_t_prime, PLMSSampler.get_x_prev_and_pred_x0, step_formula.
  rewrite Hnd.
  change (F32.ltb F32.zero F32.zero) with false.
  split; reflexivity.
Qed.

Lemma dropout_applies_only_above_zero_witness :
  DDIMSampler.sample Toy.model 3 (1, 3)%nat Toy.cond Toy.cond F32.one 1 None
    None F32.one (F32.of_Z (-1)) (Some Toy.x0) false Toy.w0
  = DDIMSampler.sample Toy.model 3 (1, 3)%nat Toy.cond Toy.cond F32.one 1 None
      None F32.one F32.zero (Some Toy.x0) false Toy.w0.
Proof.
  exact (proj1 (@dropout_applies_only_above_zero Toy.model 3%nat (1, 3)%nat
                  Toy.cond Toy.cond F32.one 1%nat None None F32.one
                  (F32.of_Z (-1)) (Some Toy.x0) false Toy.w0 eq_refl)).
Defined.

(** ** The initial latent *)

Lemma list_sum_repeat n b : list_sum (repeat n b) = (b * n)%nat.
Proof. induction b as [| b IH]; simpl; [reflexivity | rewrite IH; lia]. Qed.

Lemma schedule_run model T acp n method eta w schedule :
  fst (DDIMSchedule model T acp n method eta w) = Returned schedule ->
  forall w', DDIMSchedule model T acp n method eta w' = (Returned schedule, w').
Proof.
  intros H w'. unfold DDIMSchedule in *.
  rewrite (surjective_pairing (build_schedule _ _ _ _ w')).
  rewrite build_schedule_pure.
  rewrite (build_schedule_any_world _ _ _ _ w' w), H. reflexivity.
Qed.

(** X13.  Without an [initial_latent], [sample] draws one once its
    schedule is built and before it logs or steps: for a conditioning of
    the right batch size and a schedule that can be built, the call is the
    call with the first [batch * elements] values of the generator passed
    in as the initial latent, made with the generator advanced by that
    many values.  This holds for both samplers (PLMS builds the same
    schedule, with [eta = 0]). *)
Theorem sample_draws_a_missing_initial_latent :
  forall model num_steps shape neutral positive g batch mask orig temp nd q
         schedule w,
    List.length positive = batch ->
    fst (DDIMSchedule model (num_timesteps model) (alphas_cumprod model)
           num_steps "uniform" F32.zero w) = Returned schedule ->
    let first_draw := fill (stream w) (drawn w) (repeat (snd shape) (fst shape)) in
    let advanced :=
      World (stream w) (drawn w + fst shape * snd shape) (trace w) in
    DDIMSampler.sample model num_steps shape neutral positive g batch mask
      orig temp nd None q w
    = DDIMSampler.sample model num_steps shape neutral positive g batch mask
        orig temp nd (Some first_draw) q advanced
    /\ PLMSSampler.sample model num_steps shape neutral positive g batch mask
         orig temp nd None q w
       = PLMSSampler.sample model num_steps shape neutral positive g batch
           mask orig temp nd (Some first_draw) q advanced.
Proof.
  intros model num_steps shape neutral positive g batch mask orig temp nd q
    schedule w Hb Hs first_draw advanced.
  pose proof (schedule_run _ _ _ _ _ _ _ Hs) as Hrun.
  unfold DDIMSampler.sample, PLMSSampler.sample,
    PLMSSampler.sample_with_history, PLMSSchedule.
  unfold DDIMSchedule in *.
  rewrite Hb, Nat.eqb_refl. cbv beta iota delta [negb].
  unfold bind. rewrite !Hrun.
  cbv beta iota zeta delta [default_to randn randn_rows ret stream drawn trace].
  rewrite list_sum_repeat.
  split; reflexivity.
Qed.

Lemma sample_draws_a_missing_initial_latent_witness :
  DDIMSampler.sample Toy.model 3 (1, 3)%nat Toy.cond Toy.cond F32.one 1 None
    None F32.one F32.zero None false Toy.w0
  = DDIMSampler.sample Toy.model 3 (1, 3)%nat Toy.cond Toy.cond F32.one 1 None
      None F32.one F32.zero (Some (fill Toy.gauss 0 [3%nat])) false
      (World Toy.gauss 3 []).
Proof.
  assert (H : fst (DDIMSchedule Toy.model (num_timesteps Toy.model)
                     (alphas_cumprod Toy.model) 3 "uniform" F32.zero Toy.w0)
              = Returned toy_schedule) by (vm_compute; reflexivity).
  exact (proj1 (@sample_draws_a_missing_initial_latent Toy.model 3%nat
                  (1, 3)%nat Toy.cond Toy.cond F32.one 1%nat None None F32.one
                  F32.zero false toy_schedule Toy.w0 eq_refl H)).
Defined.

(** ** Shapes and draws through the loop *)

Lemma length_zip_with {A B C : Type} (f : A -> B -> C) l1 l2 :
  List.length l2 = List.length l1 ->
  List.length (zip_with f l1 l2) = List.length l1.
Proof.
  revert l2. induction l1 as [| a l1 IH]; intros [| b l2] H; simpl in *;
    try discriminate; [reflexivity |].
  f_equal. apply IH. lia.
Qed.

Lemma shape_of_tmap2 f x y :
  shape_of y = shape_of x -> shape_of (tmap2 f x y) = shape_of x.
Proof.
  unfold shape_of, tmap2. revert y.
  induction x as [| rx x IH]; intros [| ry y] H; simpl in *;
    try discriminate; [reflexivity |].
  injection H as Hl H. f_equal; [apply length_zip_with; exact Hl | apply IH; exact H].
Qed.

Lemma shape_of_noise_term sigma z temp :
  shape_of (noise_term sigma z temp) = shape_of z.
Proof. unfold noise_term, scale_r, scale. rewrite !shape_of_tmap. reflexivity. Qed.

(** Without dropout the update formula hands back a latent and an
    estimate of the shape of the latent it was given, and has drawn one
    value per element. *)
Lemma step_formula_shape model x e s a_t sigma a_prev nd temp w :
  shape_of e = shape_of x ->
  F32.ltb F32.zero nd = false ->
  exists xp p,
    step_formula model x e s a_t sigma a_prev nd false false temp w
    = (Returned (xp, p),
       World (stream w) (drawn w + list_sum (shape_of x)) (trace w))
    /\ shape_of xp = shape_of x
    /\ shape_of p = shape_of x.
Proof.
  intros He Hnd.
  unfold step_formula, noise_like, randn_rows, bind, ret. rewrite Hnd.
  do 2 eexists. split; [reflexivity |].
  assert (Hp : shape_of (predicted_latent_of x e s a_t) = shape_of x).
  { unfold predicted_latent_of, divide, tsub, scale.
    rewrite shape_of_tmap. apply shape_of_tmap2.
    rewrite shape_of_tmap. exact He. }
  split; [| exact Hp].
  unfold tadd. rewrite shape_of_tmap2.
  - rewrite shape_of_tmap2.
    + unfold scale. rewrite shape_of_tmap. exact Hp.
    + unfold direction_term, scale. rewrite !shape_of_tmap.
      rewrite He, Hp. reflexivity.
  - rewrite shape_of_noise_term, shape_of_fill.
    rewrite shape_of_tmap2.
    + unfold scale. rewrite shape_of_tmap. symmetry. exact Hp.
    + unfold direction_term, scale. rewrite !shape_of_tmap.
      rewrite He, Hp. reflexivity.
Qed.

Lemma ddim_decode_turn_shape model initial neutral positive g schedule temp
    orig total i step x w y w' :
  shape_preserving model ->
  DDIMSampler.decode_iteration model initial neutral positive g schedule temp
    None orig total i step x w = (Returned y, w') ->
  shape_of y = shape_of x
  /\ drawn w' = (drawn w + list_sum (shape_of x))%nat
  /\ stream w' = stream w.
Proof.
  intros Hm H. unfold DDIMSampler.decode_iteration in H.
  apply bind_inv in H. destruct H as (x0 & wa & Ea & H).
  inversion Ea; subst.
  apply bind_inv in H. destruct H as ([xp p] & wb & Eb & H).
  cbv beta iota zeta delta [log_latent bind emit ret] in H.
  inversion H; subst. cbn [drawn stream]. clear H.
  unfold DDIMSampler.p_sample_ddim, DDIMSampler.p_sample_ddim_formula in Eb.
  apply bind_inv in Eb. destruct Eb as (u & wc & Ec & H).
  unfold assert in Ec.
  destruct (F32.leb F32.one g); [| discriminate]. inversion Ec; subst.
  apply bind_inv in H. destruct H as (np & wd & Ed & H).
  rewrite noise_prediction_run in Ed. inversion Ed; subst.
  apply bind_inv in H. destruct H as ([[[a_t a_prev] sigma] s] & we & Ee & H).
  pose proof (coefficients_pure schedule (total - i - 1)
                (World (stream wc) (drawn wc)
                   (trace wc ++ [EvNoisePrediction x0
                                   (full_ts (List.length initial) step)])))
    as Hp.
  rewrite Ee in Hp. simpl in Hp. subst we.
  destruct (@step_formula_shape model x0
              (get_noise_prediction model x0
                 (full_ts (List.length initial) step) neutral positive g)
              s a_t sigma a_prev F32.zero temp
              (World (stream wc) (drawn wc)
                 (trace wc ++ [EvNoisePrediction x0
                                 (full_ts (List.length initial) step)]))
              (Hm _ _ _ _ _) eq_refl) as (xp' & p' & R & Sx & Sp).
  rewrite R in H. inversion H; subst. simpl. auto.
Qed.

Lemma length_enumerate_flipped (timesteps : list nat) :
  List.length (enumerate_flipped timesteps) = List.length timesteps.
Proof.
  unfold enumerate_flipped.
  rewrite length_combine, length_seq, length_rev. apply Nat.min_id.
Qed.

Lemma ddim_decode_loop_shape model initial neutral positive g schedule temp
    orig total steps :
  shape_preserving model ->
  forall x w y w',
    for_each
      (DDIMSampler.decode_iteration model initial neutral positive g schedule
         temp None orig total) steps x w = (Returned y, w') ->
    shape_of y = shape_of x
    /\ drawn w' = (drawn w + List.length steps * list_sum (shape_of x))%nat
    /\ stream w' = stream w.
Proof.
  intros Hm.
  induction steps as [| [i step] steps IH]; intros x w y w' H.
  - inversion H; subst. simpl. repeat split; lia.
  - simpl in H. apply bind_inv in H. destruct H as (x1 & w1 & E & H).
    apply ddim_decode_turn_shape in E; [| exact Hm].
    destruct E as (S1 & D1 & T1).
    apply IH in H. destruct H as (S2 & D2 & T2).
    rewrite S2, D2, T2, S1, D1, T1. simpl.
    repeat split; lia.
Qed.

(** X14.  With a noise predictor that keeps the shape of its input, a
    call of DDIM [decode] without a mask that returns hands back a latent
    of the shape of the initial latent, and has drawn from the generator
    exactly one value per element of the latent and per step walked,
    whatever the sigmas of the schedule are. *)
Theorem ddim_decode_keeps_the_shape_and_counts_its_draws :
  forall model initial neutral positive g t_start schedule temp orig w y w',
    shape_preserving model ->
    DDIMSampler.decode model initial neutral positive g t_start schedule temp
      None orig w = (Returned y, w') ->
    shape_of y = shape_of initial
    /\ drawn w'
       = (drawn w
          + List.length (slice_to (ddim_timesteps schedule) t_start)
            * list_sum (shape_of initial))%nat
    /\ stream w' = stream w.
Proof.
  intros model initial neutral positive g t_start schedule temp orig w y w'
    Hm H.
  unfold DDIMSampler.decode in H.
  apply ddim_decode_loop_shape in H; [| exact Hm].
  rewrite length_enumerate_flipped in H. exact H.
Qed.

Lemma ddim_decode_keeps_the_shape_and_counts_its_draws_witness :
  exists y w',
    DDIMSampler.decode Toy.model Toy.x0 Toy.cond Toy.cond F32.one 3
      toy_schedule F32.one None None Toy.w0 = (Returned y, w')
    /\ shape_of y = [3%nat]
    /\ drawn w' = 9%nat.
Proof.
  assert (Hm : shape_preserving Toy.model).
  { intros x ts neutral positive g. simpl. unfold Toy.halve, scale.
    apply shape_of_tmap. }
  destruct (DDIMSampler.decode Toy.model Toy.x0 Toy.cond Toy.cond F32.one 3
              toy_schedule F32.one None None Toy.w0) as [[e | y] w'] eqn:E;
    [apply (f_equal fst) in E; vm_compute in E; discriminate E |].
  exists y, w'. split; [reflexivity |].
  destruct (@ddim_decode_keeps_the_shape_and_counts_its_draws Toy.model
              Toy.x0 Toy.cond Toy.cond F32.one 3%Z toy_schedule F32.one None
              Toy.w0 y w' Hm E) as (S1 & D1 & _).
  split; [exact S1 | exact D1].
Defined.

(** ** PLMS [decode] against PLMS [sample] *)

(** Without a mask, without dropout and without quantisation, a turn of
    PLMS [sample] and a turn of PLMS [decode] on the same latent and
    history, from worlds that agree on the generator, have the same
    outcome and stay in step. *)
Lemma plms_iterations_agree model neutral positive g batch (initial : Tensor)
    temp nd schedule time_range total orig orig' noise i step st ws wd :
  List.length initial = batch ->
  F32.ltb F32.zero nd = false ->
  stream ws = stream wd ->
  drawn ws = drawn wd ->
  let rs := PLMSSampler.sample_iteration model neutral positive g batch None
              orig temp nd false schedule time_range total i step st ws in
  let rd := PLMSSampler.decode_iteration model neutral positive g schedule
              initial temp None orig' noise time_range total i step st wd in
  fst rs = fst rd /\ in_step ws wd (snd rs) (snd rd).
Proof.
  intros Hb Hnd Hs Hd. subst batch.
  destruct ws as [s d ts], wd as [s' d' td]. simpl in Hs, Hd. subst s' d'.
  destruct st as [x eps].
  unfold PLMSSampler.sample_iteration, PLMSSampler.decode_iteration,
    PLMSSampler.p_sample_plms, PLMSSampler.e_t_prime,
    PLMSSampler.get_x_prev_and_pred_x0, step_formula, coefficients.
  rewrite Hnd.
  change (F32.ltb F32.zero F32.zero) with false.
  destruct (F32.leb F32.one g);
    [| cbv beta iota zeta delta [bind ret raise assert fst snd];
       split; [reflexivity | apply in_step_refl]].
  destruct (nth_error (ddim_alphas schedule) (total - i - 1)) as [a_t |];
    [destruct (nth_error (ddim_alphas_prev schedule) (total - i - 1))
       as [a_prev |];
     [destruct (nth_error (ddim_sigmas schedule) (total - i - 1))
        as [sigma_t |];
      [destruct (nth_error (ddim_sqrt_one_minus_alphas schedule)
                   (total - i - 1)) as [sqrt_one_minus_at |] |] |] |];
    destruct eps as [| e1 [| e2 [| e3 eps]]];
    cbv beta iota zeta delta
      [bind ret raise emit assert lookup noise_prediction noise_like
       randn_rows log_latent stream drawn trace fst snd List.length];
    (split; [reflexivity |]);
    (repeat split; cbn [stream drawn trace]; try lia);
    repeat rewrite <- app_assoc; do 2 eexists; repeat split.
Qed.

Lemma plms_loops_agree model neutral positive g batch (initial : Tensor)
    temp nd schedule time_range total orig orig' noise :
  List.length initial = batch ->
  F32.ltb F32.zero nd = false ->
  forall steps st ws wd,
    stream ws = stream wd ->
    drawn ws = drawn wd ->
    let rs := for_each
                (PLMSSampler.sample_iteration model neutral positive g batch
                   None orig temp nd false schedule time_range total)
                steps st ws in
    let rd := for_each
                (PLMSSampler.decode_iteration model neutral positive g
                   schedule initial temp None orig' noise time_range total)
                steps st wd in
    fst rs = fst rd /\ in_step ws wd (snd rs) (snd rd).
Proof.
  intros Hb Hnd steps.
  induction steps as [| [i step] steps IH]; intros st ws wd Hs Hd; simpl.
  - split; [reflexivity | apply in_step_refl].
  - destruct (@plms_iterations_agree model neutral positive g batch initial
                temp nd schedule time_range total orig orig' noise i step st
                ws wd Hb Hnd Hs Hd) as [Hf Hw].
    unfold bind.
    destruct (PLMSSampler.sample_iteration model neutral positive g batch None
                orig temp nd false schedule time_range total i step st ws)
      as [os ws1].
    destruct (PLMSSampler.decode_iteration model neutral positive g schedule
                initial temp None orig' noise time_range total i step st wd)
      as [od wd1].
    simpl in Hf, Hw. subst od.
    destruct os as [e | y].
    + split; [reflexivity | exact Hw].
    + assert (Hs1 : stream ws1 = stream wd1)
        by (destruct Hw as (A & B & _); congruence).
      assert (Hd1 : drawn ws1 = drawn wd1)
        by (destruct Hw as (_ & _ & D & L1 & L2 & _); lia).
      destruct (IH y ws1 wd1 Hs1 Hd1) as [Hf' Hw'].
      split; [exact Hf' |].
      eapply in_step_trans; eassumption.
Qed.

(** X15.  Without a mask, PLMS [decode] called with a noise tensor and
    without [t_start], on the schedule that PLMS [sample] builds, has the
    outcome of PLMS [sample] for the same [initial_latent] with
    [quantize_denoised] false and a [noise_dropout] not above zero: the
    same final latent (or the same exception), the same number of random
    draws, and the same sequence of noise predictions and logged latents
    up to the labels of the logs.  The conditioning and the latent have
    [batch_size] rows. *)
Theorem plms_decode_matches_sample_without_mask :
  forall model num_steps shape neutral positive g batch temp nd x schedule
         orig orig' noise w,
    List.length positive = batch ->
    List.length x = batch ->
    F32.ltb F32.zero nd = false ->
    fst (PLMSSchedule model (num_timesteps model) (alphas_cumprod model)
           num_steps "uniform" w) = Returned schedule ->
    let rs := PLMSSampler.sample model num_steps shape neutral positive g batch
                None orig temp nd (Some x) false w in
    let rd := PLMSSampler.decode model neutral positive g schedule x None temp
                None orig' (Some noise) w in
    fst rs = fst rd
    /\ drawn (snd rs) = drawn (snd rd)
    /\ exists evs_s evs_d,
        trace (snd rs) = trace w ++ evs_s
        /\ trace (snd rd) = trace w ++ evs_d
        /\ map unlabel evs_s = map unlabel evs_d.
Proof.
  intros model num_steps shape neutral positive g batch temp nd x schedule
    orig orig' noise w Hp Hx Hnd Hsch rs rd.
  assert (Hrun : PLMSSchedule model (num_timesteps model)
                   (alphas_cumprod model) num_steps "uniform" w
                 = (Returned schedule, w)).
  { rewrite (surjective_pairing (PLMSSchedule _ _ _ _ _ _)).
    rewrite Hsch. unfold PLMSSchedule. rewrite build_schedule_pure.
    reflexivity. }
  subst rs rd.
  unfold PLMSSampler.sample, PLMSSampler.decode,
    PLMSSampler.sample_with_history, PLMSSampler.decode_with_history.
  rewrite Hp, Nat.eqb_refl. cbn [negb].
  unfold bind. rewrite !Hrun.
  cbv beta iota zeta delta [default_to ret log_latent emit].
  set (ws := World (stream w) (drawn w)
               (trace w ++ [EvLogLatent "initial latent" x])).
  set (wd := World (stream w) (drawn w) (trace w ++ [EvLogLatent "x_dec" x])).
  pose proof (@plms_loops_agree model neutral positive g batch x temp nd
                schedule (rev (ddim_timesteps schedule))
                (List.length (ddim_timesteps schedule)) orig orig' noise Hx
                Hnd (enumerate_flipped (ddim_timesteps schedule)) (x, []) ws wd
                eq_refl eq_refl) as Hagree.
  match goal with
  | |- context [for_each ?b ?s ?st ws] =>
      destruct (for_each b s st ws) as [os ws1] eqn:Es
  end.
  match goal with
  | |- context [for_each ?b ?s ?st wd] =>
      destruct (for_each b s st wd) as [od wd1] eqn:Ed
  end.
  assert (Hf : os = od).
  { change (fst (os, ws1) = fst (od, wd1)). rewrite <- Es, <- Ed.
    exact (proj1 Hagree). }
  assert (Hw : in_step ws wd ws1 wd1).
  { change (in_step ws wd (snd (os, ws1)) (snd (od, wd1))).
    rewrite <- Es, <- Ed. exact (proj2 Hagree). }
  subst od. clear Hagree Es Ed.
  destruct Hw as (_ & _ & D & L1 & L2 & ns & nd' & T1 & T2 & U).
  assert (Hd' : drawn ws1 = drawn wd1) by (simpl in D, L1, L2; lia).
  destruct os as [e | [y eps]]; cbn [fst snd];
    (split; [reflexivity |]);
    (split; [exact Hd' |]);
    exists (EvLogLatent "initial latent" x :: ns),
           (EvLogLatent "x_dec" x :: nd');
    (split; [| split]);
    try (rewrite T1; unfold ws; simpl; rewrite <- app_assoc; reflexivity);
    try (rewrite T2; unfold wd; simpl; rewrite <- app_assoc; reflexivity);
    simpl; f_equal; exact U.
Qed.

Lemma plms_decode_matches_sample_without_mask_witness :
  fst (PLMSSampler.sample Toy.model 3 (1, 3)%nat Toy.cond Toy.cond F32.one 1
         None None F32.one F32.zero (Some Toy.x0) false Toy.w0)
  = fst (PLMSSampler.decode Toy.model Toy.cond Toy.cond F32.one toy_schedule
           Toy.x0 None F32.one None None (Some Toy.x0) Toy.w0).
Proof.
  assert (H : fst (PLMSSchedule Toy.model (num_timesteps Toy.model)
                     (alphas_cumprod Toy.model) 3 "uniform" Toy.w0)
              = Returned toy_schedule) by (vm_compute; reflexivity).
  exact (proj1 (@plms_decode_matches_sample_without_mask Toy.model 3
                  (1, 3)%nat Toy.cond Toy.cond F32.one 1%nat F32.one F32.zero
                  Toy.x0 toy_schedule None None Toy.x0 Toy.w0 eq_refl eq_refl
                  eq_refl H)).
Defined.
